(** * v64tng shader tools: SPIR-V to C++ header transcoders

    Shallow embedding of [spv_to_constexpr.py] (word mode) and
    [generate_shader_headers.py] (byte mode), and the properties of their
    output.

    Conventions.
    - A Python [bytes] value is a [list byte]; a Python [str] is a [string].
    - The file system is a finite map from paths to file contents; every
      [open] and every [print] is recorded, in order, in a trace.
    - A file opened in text mode receives the bytes of the text written to it
      (no newline translation, one byte per character).
    - Only [open] can fail; [print], [os.getcwd] and the reads and writes on
      an opened file always succeed: the working directory exists, the disk
      is not full and the text written can be encoded.
    - A path stands for the file it names: a world holds no links and no
      two spellings of one file.  Statements that compare paths or count
      characters say so in their hypotheses. *)

From Stdlib Require Import Strings.Byte Strings.Ascii Strings.String.
From Stdlib Require Import NArith ZArith List Lia.
From stdpp Require Import gmap strings list fin_maps.

(** ** Python built-ins used by the two scripts *)

Module Py.

(** One lowercase hexadecimal digit, as the [x] presentation type and
    [bytes.hex] print it. *)
Definition hex_digit (n : N) : ascii :=
  nth (N.to_nat n)
      ["0"; "1"; "2"; "3"; "4"; "5"; "6"; "7";
       "8"; "9"; "a"; "b"; "c"; "d"; "e"; "f"]%char "0"%char.

(** [format(b, '02x')] for an integer [b] taken out of a [bytes] value
    (so [0 <= b < 256]): two digits, zero padded. *)
Definition format_02x (b : byte) : string :=
  String (hex_digit (Byte.to_N b / 16))
         (String (hex_digit (Byte.to_N b mod 16)) EmptyString).

(** [bs.hex()]: two lowercase digits per byte, no separator. *)
Fixpoint hex (bs : list byte) : string :=
  match bs with
  | [] => EmptyString
  | b :: bs' => format_02x b +:+ hex bs'
  end.

(** [range(start, stop, step)] for a positive [step]; [fuel] bounds the
    number of elements produced. *)
Fixpoint range_go (fuel i stop step : nat) : list nat :=
  match fuel with
  | O => []
  | S fuel' =>
      if i <? stop then i :: range_go fuel' (i + step) stop step else []
  end.

Definition range (start stop step : nat) : list nat :=
  range_go (stop - start) start stop step.

(** [xs[i:j]] for [0 <= i <= j]: clipped to the length of [xs], never an
    error. *)
Definition slice {A} (xs : list A) (i j : nat) : list A :=
  take (j - i) (drop i xs).

(** [xs[::-1]]. *)
Definition reversed {A} (xs : list A) : list A := rev xs.

(** [sep.join(parts)]. *)
Fixpoint join (sep : string) (parts : list string) : string :=
  match parts with
  | [] => EmptyString
  | [p] => p
  | p :: rest => p +:+ sep +:+ join sep rest
  end.

(** Characters removed by [str.strip()]: the ASCII characters for which
    [str.isspace] holds (tab to carriage return, the four separators
    0x1c-0x1f, and the space). *)
Definition isspace (c : ascii) : bool :=
  let n := N_of_ascii c in
  ((9 <=? n) && (n <=? 13) || (28 <=? n) && (n <=? 32))%N.

Fixpoint lstrip (s : string) : string :=
  match s with
  | EmptyString => EmptyString
  | String c s' => if isspace c then lstrip s' else s
  end.

(** [rstrip] keeps a character when it is not white space or when
    something survives after it. *)
Fixpoint rstrip (s : string) : string :=
  match s with
  | EmptyString => EmptyString
  | String c s' =>
      match rstrip s' with
      | EmptyString => if isspace c then EmptyString else String c EmptyString
      | r => String c r
      end
  end.

Definition strip (s : string) : string := rstrip (lstrip s).

End Py.

(** ** Files, console and exceptions *)

Module IO.

Inductive mode := RB | W.

(** What a run does to the outside, in program order. *)
Inductive event :=
| Printed (line : string)
| Opened (path : string) (m : mode).

(** A failed [open] raises [OSError] ([FileNotFoundError],
    [PermissionError], ...); [sys.exit(n)] raises [SystemExit]. *)
Inductive exn :=
| OSError (path : string)
| SystemExit (code : Z).

Inductive outcome (A : Type) :=
| Ok (a : A)
| Raised (e : exn).
Arguments Ok {A} a.
Arguments Raised {A} e.

(** [files] holds the files that can be opened for reading, with their
    contents; [locked] the paths that cannot be opened for writing. *)
Record world := World {
  files : gmap string (list byte);
  locked : gset string;
  cwd : string;
  trace : list event
}.

Definition M (A : Type) : Type := world → outcome A * world.

Definition ret {A} (a : A) : M A := λ w, (Ok a, w).

Definition bind {A B} (m : M A) (k : A → M B) : M B :=
  λ w, match m w with
       | (Ok a, w') => k a w'
       | (Raised e, w') => (Raised e, w')
       end.

Definition raise {A} (e : exn) : M A := λ w, (Raised e, w).

Definition emit (e : event) : M unit :=
  λ w, (Ok tt, World (files w) (locked w) (cwd w) (trace w ++ [e])).

Definition getcwd : M string := λ w, (Ok (cwd w), w).

(** [print(a)] and [print(a, b)]: the arguments separated by one space. *)
Definition print (args : list string) : M unit :=
  emit (Printed (Py.join " " args)).

(** [with open(path, 'rb') as f: f.read()]. *)
Definition read_binary (path : string) : M (list byte) :=
  bind (emit (Opened path RB)) (λ _ w,
    match files w !! path with
    | Some data => (Ok data, w)
    | None => (Raised (OSError path), w)
    end).

(** [open(path, 'w')]: the file is created or truncated. *)
Definition open_w (path : string) : M unit :=
  bind (emit (Opened path W)) (λ _ w,
    if decide (path ∈ locked w) then (Raised (OSError path), w)
    else (Ok tt, World (<[path := []]> (files w)) (locked w) (cwd w) (trace w))).

(** The bytes a text-mode file receives for [s]. *)
Definition encode (s : string) : list byte := list_byte_of_string s.

(** [f.write(s)] on the file opened at [path]. *)
Definition write (path : string) (s : string) : M unit :=
  λ w, (Ok tt,
        World (alter (λ old, old ++ encode s) path (files w))
              (locked w) (cwd w) (trace w)).

(** [for x in xs: body(x)]. *)
Fixpoint for_each {A} (xs : list A) (body : A → M unit) : M unit :=
  match xs with
  | [] => ret tt
  | x :: xs' => bind (body x) (λ _, for_each xs' body)
  end.

(** The exit status of the interpreter for a finished script. *)
Definition exit_status {A} (o : outcome A) : Z :=
  match o with
  | Ok _ => 0
  | Raised (SystemExit code) => code
  | Raised (OSError _) => 1
  end.

End IO.

Notation "'do' x <- m 'in' k" := (IO.bind m (λ x, k))
  (at level 10, x name, m at level 100, k at level 200).
Notation "'run' m 'in' k" := (IO.bind m (λ _, k))
  (at level 10, m at level 100, k at level 200).

(** ** spv_to_constexpr.py *)

Module SpvToConstexpr.
Import IO.

Definition nl : string := String (ascii_of_nat 10) EmptyString.

(** One loop iteration: [word = data[i:i+4][::-1]], then the line
    [f"    0x{word.hex()},\n"]; [word_token] is its literal. *)
Definition word_at (data : list byte) (i : nat) : list byte :=
  Py.reversed (Py.slice data i (i + 4)).

Definition word_token (data : list byte) (i : nat) : string :=
  "0x" +:+ Py.hex (word_at data i).

Definition body_line (data : list byte) (i : nat) : string :=
  "    " +:+ word_token data i +:+ "," +:+ nl.

Definition spv_to_constexpr (input_filename output_filename var_name : string)
  : M unit :=
  do data <- read_binary input_filename in
  run open_w output_filename in
  run write output_filename
        ("constexpr uint32_t " +:+ var_name +:+ "[] = {" +:+ nl) in
  run for_each (Py.range 0 (length data) 4)
        (λ i, write output_filename (body_line data i)) in
  write output_filename ("};" +:+ nl).

Definition usage : string :=
  "Usage: python spv_to_constexpr.py <input.spv> <output.h> <variable_name>".

(** [sys.argv[i]]; the index is in range wherever [main] uses it. *)
Definition arg (argv : list string) (i : nat) : string := nth i argv "".

(** The [if __name__ == "__main__":] block. *)
Definition main (argv : list string) : M unit :=
  if length argv <? 4 then
    run print [usage] in
    raise (SystemExit 1)
  else
    spv_to_constexpr (arg argv 1) (arg argv 2) (arg argv 3).

End SpvToConstexpr.

(** ** generate_shader_headers.py *)

Module GenerateShaderHeaders.
Import IO.

Definition nl : string := SpvToConstexpr.nl.

(** [f'0x{b:02x}']. *)
Definition byte_token (b : byte) : string := "0x" +:+ Py.format_02x b.

(** [', '.join([f'0x{b:02x}' for b in spv])]. *)
Definition spv_hex_array (spv : list byte) : string :=
  Py.join ", " (map byte_token spv).

(** The triple-quoted f-string, before [strip]. *)
Definition header_content (shader_name : string) (spv : list byte) : string :=
  nl +:+ "    // " +:+ shader_name +:+ ".h" +:+ nl +:+
  "    " +:+ spv_hex_array spv +:+ nl +:+
  "    ".

Definition generate_header (shader_name : string) : M unit :=
  let header_filename := "shaders/" +:+ shader_name +:+ ".h" in
  let spv_filename := "shaders/" +:+ shader_name +:+ ".spv" in
  do d <- getcwd in
  run print ["Current working directory:"; d] in
  run print ["Trying to open:"; spv_filename] in
  do spv <- read_binary spv_filename in
  run open_w header_filename in
  write header_filename (Py.strip (header_content shader_name spv)).

Definition shaders : list string := ["vert"; "frag"].

(** The module body: [for shader in shaders: generate_header(shader)]. *)
Definition main : M unit := for_each shaders generate_header.

End GenerateShaderHeaders.

(** ** Reading the generated text back

    Everything below describes the generated files from the outside: what a
    well-formed token or line is, and how a consumer recovers the payload
    from the word-mode declaration. *)

Module Reader.

Definition nl : string := SpvToConstexpr.nl.

Definition chars (s : string) : list ascii := list_ascii_of_string s.

(** [[0-9a-f]]. *)
Definition is_lower_hex (c : ascii) : bool :=
  let n := N_of_ascii c in
  ((48 <=? n) && (n <=? 57) || (97 <=? n) && (n <=? 102))%N.

Definition unhex_digit (c : ascii) : option N :=
  let n := N_of_ascii c in
  if ((48 <=? n) && (n <=? 57))%N then Some (n - 48)%N
  else if ((97 <=? n) && (n <=? 102))%N then Some (n - 87)%N
  else None.

(** Pairs of lowercase digits back to bytes, in the order written. *)
Fixpoint unhex (cs : list ascii) : option (list byte) :=
  match cs with
  | [] => Some []
  | [_] => None
  | hi :: lo :: rest =>
      match unhex_digit hi, unhex_digit lo, unhex rest with
      | Some h, Some l, Some bs =>
          match Byte.of_N (16 * h + l) with
          | Some b => Some (b :: bs)
          | None => None
          end
      | _, _, _ => None
      end
  end.


(** A word-mode body line carrying [digits] digits: four spaces, [0x],
    exactly [digits] lowercase hexadecimal digits, a comma, nothing else. *)
Definition word_line_ok (digits : nat) (l : string) : bool :=
  let cs := chars l in
  bool_decide (take 6 cs = chars "    0x")
  && bool_decide (length cs = 6 + digits + 1)
  && forallb is_lower_hex (take digits (drop 6 cs))
  && bool_decide (drop (6 + digits) cs = [","%char]).

(** [s] without the prefix [p], when it has that prefix. *)
Fixpoint strip_prefix (p s : string) : option string :=
  match p, s with
  | EmptyString, _ => Some s
  | String a p', String b s' =>
      if bool_decide (a = b) then strip_prefix p' s' else None
  | String _ _, EmptyString => None
  end.

(** [s.split('\n')]. *)
Fixpoint lines (s : string) : list string :=
  match s with
  | EmptyString => [EmptyString]
  | String c s' =>
      if bool_decide (c = ascii_of_nat 10) then EmptyString :: lines s'
      else match lines s' with
           | l :: ls => String c l :: ls
           | [] => [String c EmptyString]
           end
  end.

Definition has_newline (s : string) : bool :=
  existsb (λ c, bool_decide (c = ascii_of_nat 10)) (chars s).

(** The body lines of a declaration of [var_name]: the lines between the
    opening line and the closing [};], which must be followed by exactly
    one newline. *)
Definition body_lines (var_name text : string) : option (list string) :=
  match strip_prefix ("constexpr uint32_t " +:+ var_name +:+ "[] = {" +:+ nl) text with
  | None => None
  | Some rest =>
      match rev (lines rest) with
      | last :: close :: body_rev =>
          if bool_decide (last = "") && bool_decide (close = "};")
          then Some (rev body_rev) else None
      | _ => None
      end
  end.

(** The literal of a body line, when the line is four spaces, a literal and
    a comma. *)
Definition line_token (l : string) : option string :=
  match strip_prefix "    " l with
  | None => None
  | Some r =>
      match rev (chars r) with
      | c :: t_rev =>
          if bool_decide (c = ","%char)
          then Some (string_of_list_ascii (rev t_rev)) else None
      | [] => None
      end
  end.

(** A [0x] literal of eight digits back to its group of four bytes. *)
Definition token_group (t : string) : option (list byte) :=
  match strip_prefix "0x" t with
  | None => None
  | Some ds =>
      match unhex (chars ds) with
      | Some bs => if bool_decide (length bs = 4) then Some bs else None
      | None => None
      end
  end.

Fixpoint all_some {A} (xs : list (option A)) : option (list A) :=
  match xs with
  | [] => Some []
  | Some a :: xs' =>
      match all_some xs' with Some r => Some (a :: r) | None => None end
  | None :: _ => None
  end.

(** The payload a declaration stands for: every literal parsed to its
    four-byte group, every group byte-reversed, the groups concatenated. *)
Definition payload_of (var_name text : string) : option (list byte) :=
  match body_lines var_name text with
  | None => None
  | Some ls =>
      match all_some (map (λ l, match line_token l with
                                | Some t => token_group t
                                | None => None
                                end) ls) with
      | Some groups => Some (concat (map (λ g, rev g) groups))
      | None => None
      end
  end.

(** The literals of a declaration. *)
Definition tokens_of (var_name text : string) : option (list string) :=
  match body_lines var_name text with
  | None => None
  | Some ls => all_some (map line_token ls)
  end.

Definition starts_with (p s : string) : Prop := ∃ r, s = p +:+ r.
Definition ends_with (q s : string) : Prop := ∃ r, s = r +:+ q.

(** A declaration of [var_name] whose body lines all satisfy [line_ok]:
    the text begins with the opening line, ends with the closing brace
    line, and every line in between is accepted, the [k]-th one by
    [line_ok k]. *)
Definition declaration_of (line_ok : nat → string → bool)
    (var_name text : string) : Prop :=
  starts_with ("constexpr uint32_t " +:+ var_name +:+ "[] = {" +:+ nl) text
  ∧ ends_with ("};" +:+ nl) text
  ∧ ∃ body, body_lines var_name text = Some body
            ∧ ∀ k l, body !! k = Some l → line_ok k l = true.

(** Every literal has eight digits. *)
Definition eight_digits (k : nat) (l : string) : bool := word_line_ok 8 l.

(** Two digits for each byte of the [k]-th group of a payload of [n]
    bytes: eight, except for a shorter last group. *)
Definition group_digits (n : nat) (k : nat) (l : string) : bool :=
  word_line_ok (2 * Nat.min 4 (n - 4 * k)) l.

End Reader.

(** ** The text each transcoder leaves in its output file *)

Module Content.

Definition nl : string := SpvToConstexpr.nl.

(** The pieces of a list of strings, one after the other. *)
Fixpoint cat (parts : list string) : string :=
  match parts with
  | [] => EmptyString
  | p :: rest => p +:+ cat rest
  end.

(** The literals the word-mode loop emits, in order. *)
Definition word_tokens (data : list byte) : list string :=
  map (SpvToConstexpr.word_token data) (Py.range 0 (length data) 4).

(** The literals the byte-mode comprehension emits, in order. *)
Definition byte_tokens (spv : list byte) : list string :=
  map GenerateShaderHeaders.byte_token spv.

(** All the writes of [spv_to_constexpr], concatenated. *)
Definition declaration (var_name : string) (data : list byte) : string :=
  ("constexpr uint32_t " +:+ var_name +:+ "[] = {" +:+ nl)
  +:+ cat (map (SpvToConstexpr.body_line data) (Py.range 0 (length data) 4))
  +:+ ("};" +:+ nl).

(** The single write of [generate_header]. *)
Definition header_text (shader_name : string) (spv : list byte) : string :=
  Py.strip (GenerateShaderHeaders.header_content shader_name spv).

(** [data] cut into consecutive groups of four, the last one shorter when
    the length is not a multiple of four. *)
Fixpoint chunks4 (data : list byte) : list (list byte) :=
  match data with
  | [] => []
  | a :: r1 =>
      match r1 with
      | [] => [[a]]
      | b :: r2 =>
          match r2 with
          | [] => [[a; b]]
          | c :: r3 =>
              match r3 with
              | [] => [[a; b; c]]
              | d :: r4 => [a; b; c; d] :: chunks4 r4
              end
          end
      end
  end.

(** The world after [path] has been opened for writing and has received
    [text], with [evs] appended to the trace. *)
Definition written (w : IO.world) (path text : string) (evs : list IO.event)
  : IO.world :=
  IO.World (<[path := IO.encode text]> (IO.files w)) (IO.locked w) (IO.cwd w)
           (IO.trace w ++ evs).

(** The world with [evs] appended to the trace and nothing else changed. *)
Definition logged (w : IO.world) (evs : list IO.event) : IO.world :=
  IO.World (IO.files w) (IO.locked w) (IO.cwd w) (IO.trace w ++ evs).

(** The input and output paths of [generate_header]. *)
Definition spv_path (shader_name : string) : string :=
  "shaders/" +:+ shader_name +:+ ".spv".
Definition h_path (shader_name : string) : string :=
  "shaders/" +:+ shader_name +:+ ".h".

(** The two debugging prints of [generate_header]. *)
Definition prints (w : IO.world) (shader_name : string) : list IO.event :=
  [IO.Printed ("Current working directory:" +:+ " " +:+ IO.cwd w);
   IO.Printed ("Trying to open:" +:+ " " +:+ spv_path shader_name)].

(** What a run of [spv_to_constexpr] leaves in its output file, read back
    as text; [None] when the run raises. *)
Definition word_mode_output (inp out var : string) (w : IO.world)
  : option string :=
  match SpvToConstexpr.spv_to_constexpr inp out var w with
  | (IO.Ok _, w') => string_of_list_byte <$> IO.files w' !! out
  | (IO.Raised _, _) => None
  end.

(** The same for [generate_header]. *)
Definition byte_mode_output (shader_name : string) (w : IO.world)
  : option string :=
  match GenerateShaderHeaders.generate_header shader_name w with
  | (IO.Ok _, w') => string_of_list_byte <$> IO.files w' !! h_path shader_name
  | (IO.Raised _, _) => None
  end.

End Content.

(** ** Sample worlds *)

Module Sample.

(** Nothing on disk. *)
Definition bare : IO.world := IO.World ∅ ∅ "/build" [].

(** Two compiled shaders and a stale header, in a world that has already
    printed something. *)
Definition disk : IO.world :=
  IO.World
    (<["shaders/vert.spv" := [x03; x02; x23; x07; x00; x00; x01; x00]%byte]>
       (<["shaders/frag.spv" := [xde; xad; xbe; xef]%byte]>
          (<["shaders/vert.h" := IO.encode "stale"]>
             (<["odd.spv" := [x01]%byte]> ∅))))
    {["shaders/frag.h"]} "/build" [IO.Printed "make"].

(** The same shaders elsewhere, with other neighbours. *)
Definition other_disk : IO.world :=
  IO.World
    (<["shaders/vert.spv" := [x03; x02; x23; x07; x00; x00; x01; x00]%byte]>
       (<["shaders/frag.spv" := [xde; xad; xbe; xef]%byte]> ∅))
    ∅ "/tmp" [].

(** Only the vertex shader has been compiled. *)
Definition vert_only : IO.world :=
  IO.World
    (<["shaders/vert.spv" := [x03; x02; x23; x07]%byte]> ∅) ∅ "/build" [].

End Sample.

(** ** Consumers of the generated files

    What the C++ compiler sees in a word-mode literal, and readers that
    accept everything the two transcoders can write. *)

Module Consumer.

Definition nl : string := SpvToConstexpr.nl.

(** The number a run of lowercase hexadecimal digits denotes, most
    significant digit first. *)
Fixpoint hex_value_go (acc : N) (cs : list ascii) : option N :=
  match cs with
  | [] => Some acc
  | c :: cs' =>
      match Reader.unhex_digit c with
      | Some d => hex_value_go (16 * acc + d) cs'
      | None => None
      end
  end.

(** The value of a [0x] literal. *)
Definition token_value (t : string) : option N :=
  match Reader.strip_prefix "0x" t with
  | Some ds => hex_value_go 0 (Reader.chars ds)
  | None => None
  end.

(** The little-endian number held in a group of bytes: the first byte is
    the least significant. *)
Fixpoint le_value (g : list byte) : N :=
  match g with
  | [] => 0
  | b :: g' => Byte.to_N b + 256 * le_value g'
  end.

(** A [0x] literal of any even number of digits back to its bytes. *)
Definition token_bytes (t : string) : option (list byte) :=
  match Reader.strip_prefix "0x" t with
  | Some ds => Reader.unhex (Reader.chars ds)
  | None => None
  end.

(** The payload of a declaration whose last literal may be short. *)
Definition payload_of (var_name text : string) : option (list byte) :=
  match Reader.body_lines var_name text with
  | None => None
  | Some ls =>
      match Reader.all_some
              (map (λ l, match Reader.line_token l with
                         | Some t => token_bytes t
                         | None => None
                         end) ls) with
      | Some groups => Some (concat (map (λ g, rev g) groups))
      | None => None
      end
  end.

(** A non-empty byte-mode token line back to its bytes: [0x] and two
    digits, then either the end or a comma, a space and more tokens. *)
Fixpoint unhex_tokens (cs : list ascii) : option (list byte) :=
  match cs with
  | z :: x :: hi :: lo :: rest =>
      if bool_decide (z = "0"%char) && bool_decide (x = "x"%char) then
        match Reader.unhex [hi; lo] with
        | Some [b] =>
            match rest with
            | [] => Some [b]
            | c :: sp :: rest' =>
                if bool_decide (c = ","%char) && bool_decide (sp = " "%char)
                then match unhex_tokens rest' with
                     | Some bs => Some (b :: bs)
                     | None => None
                     end
                else None
            | [_] => None
            end
        | _ => None
        end
      else None
  | _ => None
  end.

(** The payload of a byte-mode file for [shader_name]: nothing after the
    comment line is the empty payload. *)
Definition byte_payload_of (shader_name text : string)
  : option (list byte) :=
  match Reader.strip_prefix ("// " +:+ shader_name +:+ ".h") text with
  | None => None
  | Some EmptyString => Some []
  | Some rest =>
      match Reader.strip_prefix (nl +:+ "    ") rest with
      | Some line => unhex_tokens (Reader.chars line)
      | None => None
      end
  end.

(** The bytes in a file after a run, [None] when the file does not exist. *)
Definition file_after {A} (r : IO.outcome A * IO.world) (path : string)
  : option (list byte) :=
  IO.files (snd r) !! path.

(** The events a run added to the trace of [w]. *)
Definition new_events {A} (w : IO.world) (r : IO.outcome A * IO.world)
  : list IO.event :=
  drop (length (IO.trace w)) (IO.trace (snd r)).

(** Names made of ASCII characters only: every character is one code
    point and is written as one byte, whatever the encoding of the file. *)
Definition is_ascii (s : string) : bool :=
  forallb (λ c, (N_of_ascii c <? 128)%N) (Reader.chars s).

(** Everything a complete run of [generate_header] does, in order. *)
Definition header_script (w : IO.world) (shader_name : string)
  : list IO.event :=
  Content.prints w shader_name
  ++ [IO.Opened (Content.spv_path shader_name) IO.RB;
      IO.Opened (Content.h_path shader_name) IO.W].

(** What the batch may do: print, read a [.spv] of its list, write the
    header of the same shader. *)
Definition batch_event (e : IO.event) : Prop :=
  match e with
  | IO.Printed _ => True
  | IO.Opened p m =>
      (p = "shaders/vert.spv" ∧ m = IO.RB) ∨ (p = "shaders/vert.h" ∧ m = IO.W)
      ∨ (p = "shaders/frag.spv" ∧ m = IO.RB) ∨ (p = "shaders/frag.h" ∧ m = IO.W)
  end.

End Consumer.

(** ** More sample worlds *)

Module Sample2.

(** The vertex header cannot be written. *)
Definition vert_locked : IO.world :=
  IO.World
    (<["shaders/vert.spv" := [x03; x02; x23; x07]%byte]>
       (<["shaders/frag.spv" := [xde; xad; xbe; xef]%byte]>
          (<["shaders/vert.h" := IO.encode "stale"]> ∅)))
    {["shaders/vert.h"]} "/build" [].

(** The fragment header cannot be written. *)
Definition frag_locked : IO.world :=
  IO.World
    (<["shaders/vert.spv" := [x03; x02; x23; x07]%byte]>
       (<["shaders/frag.spv" := [xde; xad; xbe; xef]%byte]>
          (<["notes.txt" := IO.encode "keep"]> ∅)))
    {["shaders/frag.h"]} "/build" [].

(** An empty shader binary. *)
Definition empty_input : IO.world :=
  IO.World (<["empty.spv" := []]> ∅) ∅ "/build" [].

(** A binary of five bytes: one full word and one byte more. *)
Definition five : IO.world :=
  IO.World (<["five.spv" := [x01; x02; x03; x04; x05]%byte]> ∅) ∅ "/build" [].

End Sample2.

(** * Properties *)

(** ** Strings as character lists *)

Section StringFacts.

Lemma chars_app (a b : string) :
  Reader.chars (a +:+ b) = Reader.chars a ++ Reader.chars b.
Proof.
  unfold Reader.chars. induction a as [|c a IH]; [done|].
  change (String c a +:+ b) with (String c (a +:+ b)).
  cbn. by rewrite IH.
Qed.

Lemma chars_inj (a b : string) : Reader.chars a = Reader.chars b → a = b.
Proof.
  unfold Reader.chars. intros H.
  rewrite <- (string_of_list_ascii_of_string a).
  rewrite <- (string_of_list_ascii_of_string b). by rewrite H.
Qed.

Lemma str_app_assoc (a b c : string) : (a +:+ b) +:+ c = a +:+ b +:+ c.
Proof. apply chars_inj. by rewrite !chars_app, app_assoc. Qed.

Lemma str_app_nil_r (a : string) : a +:+ "" = a.
Proof. apply chars_inj. by rewrite chars_app, app_nil_r. Qed.

Lemma str_app_cons (c : ascii) (a b : string) :
  String c a +:+ b = String c (a +:+ b).
Proof. done. Qed.

Lemma encode_app (a b : string) :
  IO.encode (a +:+ b) = IO.encode a ++ IO.encode b.
Proof.
  unfold IO.encode, list_byte_of_string.
  change (list_ascii_of_string (a +:+ b)) with (Reader.chars (a +:+ b)).
  rewrite chars_app. apply map_app.
Qed.

Lemma decode_encode (s : string) : string_of_list_byte (IO.encode s) = s.
Proof. apply string_of_list_byte_of_string. Qed.

Lemma str_length_chars (s : string) : String.length s = length (Reader.chars s).
Proof. unfold Reader.chars. induction s; cbn; congruence. Qed.

End StringFacts.

(** ** The loop indices and the groups of four *)

Section Chunks.

Import Content.

(** Induction four elements at a time. *)
Lemma list_ind4 (P : list byte → Prop) :
  P [] → (∀ a, P [a]) → (∀ a b, P [a; b]) → (∀ a b c, P [a; b; c]) →
  (∀ a b c d r, P r → P (a :: b :: c :: d :: r)) →
  ∀ l, P l.
Proof.
  intros H0 H1 H2 H3 H4.
  assert (H : ∀ n l, length l < n → P l).
  { induction n as [|n IH]; intros l Hl; [lia|].
    destruct l as [|a [|b [|c [|d r]]]]; auto.
    apply H4, IH. cbn in Hl. lia. }
  intros l. apply (H (S (length l))). lia.
Qed.

Lemma range_go_done (fuel i stop step : nat) :
  stop ≤ i → Py.range_go fuel i stop step = [].
Proof.
  intros Hi. destruct fuel as [|fuel]; [done|]. cbn [Py.range_go].
  destruct (Nat.ltb_spec i stop); [lia|done].
Qed.

Lemma slice_after (pre data : list byte) :
  Py.slice (pre ++ data) (length pre) (length pre + 4) = take 4 data.
Proof.
  unfold Py.slice.
  replace (length pre + 4 - length pre) with 4 by lia.
  by rewrite drop_app_length.
Qed.

(** With fuel for every byte, the loop visits exactly the groups of four. *)
Lemma range_go_chunks (fuel : nat) :
  ∀ pre data, length data ≤ fuel →
    map (λ i, Py.slice (pre ++ data) i (i + 4))
        (Py.range_go fuel (length pre) (length pre + length data) 4)
    = chunks4 data.
Proof.
  induction fuel as [|fuel IH]; intros pre data Hfuel.
  { destruct data; [done|cbn in Hfuel; lia]. }
  cbn [Py.range_go].
  destruct data as [|a r1].
  { cbn [length]. destruct (Nat.ltb_spec (length pre) (length pre + 0)); [lia|done]. }
  destruct (Nat.ltb_spec (length pre) (length pre + length (a :: r1)))
    as [_|Hge]; [|cbn in Hge; lia].
  cbn [map]. rewrite slice_after.
  destruct r1 as [|b [|c [|d r4]]].
  - rewrite range_go_done by (cbn; lia). done.
  - rewrite range_go_done by (cbn; lia). done.
  - rewrite range_go_done by (cbn; lia). done.
  - cbn [chunks4 take]. f_equal.
    specialize (IH (pre ++ [a; b; c; d]) r4).
    rewrite <- app_assoc in IH. cbn [app] in IH.
    rewrite length_app in IH. cbn [length] in IH.
    replace (length pre + length (a :: b :: c :: d :: r4))
      with (length pre + 4 + length r4) by (cbn; lia).
    apply IH. cbn in Hfuel. lia.
Qed.

Lemma range_chunks (data : list byte) :
  map (λ i, Py.slice data i (i + 4)) (Py.range 0 (length data) 4)
  = chunks4 data.
Proof.
  unfold Py.range. rewrite Nat.sub_0_r.
  apply (range_go_chunks (length data) [] data). lia.
Qed.

Lemma concat_chunks4 (data : list byte) : concat (chunks4 data) = data.
Proof.
  induction data as [| | | |a b c d r IH] using list_ind4; try done.
  cbn [chunks4 concat app]. by rewrite IH.
Qed.

Lemma length_chunks4 (data : list byte) :
  length (chunks4 data) = (length data + 3) / 4.
Proof.
  induction data as [| | | |a b c d r IH] using list_ind4; try done.
  cbn [chunks4 length]. rewrite IH.
  replace (S (S (S (S (length r)))) + 3) with (1 * 4 + (length r + 3)) by lia.
  by rewrite Nat.div_add_l.
Qed.

Lemma chunks4_full (data : list byte) :
  length data mod 4 = 0 → Forall (λ g, length g = 4) (chunks4 data).
Proof.
  induction data as [| | | |a b c d r IH] using list_ind4;
    try done; intros Hm.
  cbn [chunks4]. constructor; [done|]. apply IH.
  change (length (a :: b :: c :: d :: r)) with (4 + length r) in Hm.
  rewrite <- (Nat.Div0.mod_add (length r) 1 4).
  by replace (length r + 1 * 4) with (4 + length r) by lia.
Qed.

(** Every group but the last is full; the last holds the remaining bytes. *)
Lemma chunks4_last (data : list byte) :
  length data mod 4 ≠ 0 →
  ∃ full, chunks4 data = full ++ [drop (length data - length data mod 4) data]
          ∧ Forall (λ g, length g = 4) full.
Proof.
  induction data as [| | | |a b c d r IH] using list_ind4; intros Hm.
  - done.
  - by exists [].
  - by exists [].
  - by exists [].
  - change (length (a :: b :: c :: d :: r)) with (4 + length r) in *.
    replace (4 + length r) with (length r + 1 * 4) in * by lia.
    rewrite Nat.Div0.mod_add in *.
    destruct (IH Hm) as (full & Hfull & Hall).
    exists ([a; b; c; d] :: full). split; [|by constructor].
    cbn [chunks4]. rewrite Hfull. cbn [app]. do 2 f_equal.
    pose proof (Nat.Div0.mod_le (length r) 4).
    replace (length r + 1 * 4 - length r mod 4)
      with (4 + (length r - length r mod 4)) by lia.
    done.
Qed.

Lemma word_tokens_chunks (data : list byte) :
  word_tokens data = map (λ g, "0x" +:+ Py.hex (rev g)) (chunks4 data).
Proof.
  unfold word_tokens. rewrite <- range_chunks, map_map. done.
Qed.

End Chunks.

(** ** Hexadecimal digits *)

Section Hex.

Import Reader.

Lemma format_02x_chars (b : byte) :
  ∃ hi lo, chars (Py.format_02x b) = [hi; lo]
           ∧ is_lower_hex hi = true ∧ is_lower_hex lo = true.
Proof. destruct b; do 2 eexists; (split; [reflexivity|split; reflexivity]). Qed.

Lemma format_02x_unhex (b : byte) (rest : list ascii) :
  unhex (chars (Py.format_02x b) ++ rest)
  = match unhex rest with Some bs => Some (b :: bs) | None => None end.
Proof.
  destruct (format_02x_chars b) as (hi & lo & E & _).
  rewrite E. cbn [app unhex].
  assert (unhex_digit hi = Some (Byte.to_N b / 16)%N
          ∧ unhex_digit lo = Some (Byte.to_N b mod 16)%N) as [-> ->].
  { destruct b; injection E as <- <-; split; reflexivity. }
  destruct (unhex rest); [|done].
  replace (Byte.of_N _) with (Some b); [done|].
  destruct b; reflexivity.
Qed.

Lemma hex_chars_length (bs : list byte) :
  length (chars (Py.hex bs)) = 2 * length bs.
Proof.
  induction bs as [|b bs IH]; [done|].
  cbn [Py.hex]. rewrite chars_app, length_app, IH.
  destruct (format_02x_chars b) as (hi & lo & -> & _). cbn. lia.
Qed.

Lemma hex_chars_lower (bs : list byte) :
  forallb is_lower_hex (chars (Py.hex bs)) = true.
Proof.
  induction bs as [|b bs IH]; [done|].
  cbn [Py.hex]. rewrite chars_app, forallb_app, IH.
  destruct (format_02x_chars b) as (hi & lo & -> & Hhi & Hlo).
  cbn. by rewrite Hhi, Hlo.
Qed.

Lemma unhex_hex (bs : list byte) : unhex (chars (Py.hex bs)) = Some bs.
Proof.
  induction bs as [|b bs IH]; [done|].
  cbn [Py.hex]. by rewrite chars_app, format_02x_unhex, IH.
Qed.

Lemma lower_hex_not_newline (cs : list ascii) :
  forallb is_lower_hex cs = true →
  existsb (λ c, bool_decide (c = ascii_of_nat 10)) cs = false.
Proof.
  induction cs as [|c cs IH]; [done|]. cbn [forallb existsb].
  intros [Hc Hcs]%andb_prop. rewrite (IH Hcs), orb_false_r.
  apply bool_decide_eq_false. intros ->. done.
Qed.

End Hex.

(** ** Reading a declaration back *)

Section Reading.

Import Reader Content.

Lemma strip_prefix_app (p s : string) : strip_prefix p (p +:+ s) = Some s.
Proof.
  induction p as [|c p IH]; [by destruct s|].
  rewrite str_app_cons. cbn [strip_prefix].
  by rewrite bool_decide_eq_true_2.
Qed.

Lemma lines_nonempty (s : string) : lines s ≠ [].
Proof.
  induction s as [|c s IH]; [done|]. cbn [lines].
  case_bool_decide; [done|]. by destruct (lines s).
Qed.

Lemma lines_app_nl (a b : string) :
  has_newline a = false → lines (a +:+ nl +:+ b) = a :: lines b.
Proof.
  unfold has_newline, chars.
  induction a as [|c a IH]; intros Ha.
  { change ("" +:+ nl +:+ b) with (String (ascii_of_nat 10) b).
    cbn [lines]. by rewrite bool_decide_eq_true_2. }
  rewrite str_app_cons. cbn [lines].
  cbn [list_ascii_of_string existsb] in Ha.
  apply orb_false_elim in Ha as [Hc Ha].
  rewrite Hc, (IH Ha). done.
Qed.

Lemma lines_cat (ls : list string) (tail : string) :
  Forall (λ l, has_newline l = false) ls →
  lines (cat (map (λ l, l +:+ nl) ls) +:+ tail) = ls ++ lines tail.
Proof.
  induction 1 as [|l ls Hl _ IH]; [done|].
  cbn [map cat app]. rewrite !str_app_assoc, lines_app_nl by done.
  by rewrite IH.
Qed.

(** The text of a body line before its newline. *)
Lemma body_line_split (data : list byte) (i : nat) :
  SpvToConstexpr.body_line data i
  = ("    " +:+ SpvToConstexpr.word_token data i +:+ ",") +:+ nl.
Proof. unfold SpvToConstexpr.body_line. by rewrite !str_app_assoc. Qed.

Lemma token_line_no_newline (bs : list byte) :
  has_newline ("    " +:+ ("0x" +:+ Py.hex bs) +:+ ",") = false.
Proof.
  unfold has_newline. rewrite !chars_app, !existsb_app.
  rewrite (lower_hex_not_newline _ (hex_chars_lower bs)). done.
Qed.

Lemma declaration_lines (var_name : string) (data : list byte) :
  body_lines var_name (declaration var_name data)
  = Some (map (λ t, "    " +:+ t +:+ ",") (word_tokens data)).
Proof.
  unfold body_lines, declaration. rewrite strip_prefix_app.
  rewrite (map_ext _ _ (body_line_split data)).
  rewrite <- (map_map (λ i, "    " +:+ SpvToConstexpr.word_token data i +:+ ",")
                      (λ l, l +:+ nl)).
  rewrite lines_cat.
  - change (lines ("};" +:+ nl)) with ["};"; ""].
    rewrite rev_app_distr. cbn [rev app].
    rewrite !bool_decide_eq_true_2 by done. cbn [andb].
    rewrite rev_involutive. unfold word_tokens. by rewrite map_map.
  - apply Forall_map, Forall_forall. intros i _.
    apply token_line_no_newline.
Qed.

Lemma line_token_line (t : string) :
  line_token ("    " +:+ t +:+ ",") = Some t.
Proof.
  unfold line_token. rewrite strip_prefix_app, chars_app.
  change (chars ",") with [","%char].
  rewrite rev_app_distr. cbn [rev app].
  rewrite bool_decide_eq_true_2 by done.
  rewrite rev_involutive. unfold chars.
  by rewrite string_of_list_ascii_of_string.
Qed.

Lemma token_group_hex (g : list byte) :
  length g = 4 → token_group ("0x" +:+ Py.hex g) = Some g.
Proof.
  intros Hg. unfold token_group.
  rewrite strip_prefix_app, unhex_hex. by rewrite bool_decide_eq_true_2.
Qed.

Lemma all_some_map_Some {A} (xs : list A) : all_some (map Some xs) = Some xs.
Proof. induction xs as [|x xs IH]; [done|]. cbn. by rewrite IH. Qed.

Lemma all_some_ext {A B} (f : A → option B) (g : A → B) (xs : list A) :
  Forall (λ x, f x = Some (g x)) xs → all_some (map f xs) = Some (map g xs).
Proof.
  induction 1 as [|x xs Hx _ IH]; [done|]. cbn. by rewrite Hx, IH.
Qed.

Lemma declaration_tokens (var_name : string) (data : list byte) :
  tokens_of var_name (declaration var_name data) = Some (word_tokens data).
Proof.
  unfold tokens_of. rewrite declaration_lines, map_map.
  rewrite (map_ext _ Some) by apply line_token_line.
  apply all_some_map_Some.
Qed.

Lemma declaration_payload (var_name : string) (data : list byte) :
  length data mod 4 = 0 →
  payload_of var_name (declaration var_name data) = Some data.
Proof.
  intros Hm. unfold payload_of.
  rewrite declaration_lines, map_map, word_tokens_chunks, map_map.
  rewrite (all_some_ext _ (λ g, rev g)).
  - rewrite map_map.
    rewrite (map_ext _ id) by (intros g; apply rev_involutive).
    by rewrite map_id, concat_chunks4.
  - eapply Forall_impl; [apply (chunks4_full data Hm)|].
    intros g Hg. cbn beta. rewrite line_token_line.
    apply token_group_hex. by rewrite length_rev.
Qed.

End Reading.

(** ** Runs of the two transcoders *)

Section Runs.

Import IO Content.

Lemma write_insert m lk cw tr (path : string) (c : list byte) (s : string) :
  write path s (World (<[path := c]> m) lk cw tr)
  = (Ok tt, World (<[path := c ++ encode s]> m) lk cw tr).
Proof. unfold write. cbn [files locked cwd trace]. by rewrite alter_insert_eq. Qed.

(** A loop of writes appends the pieces in order. *)
Lemma for_each_write {A} (g : A → string) (path : string) (xs : list A) :
  ∀ m lk cw tr c,
    for_each xs (λ x, write path (g x)) (World (<[path := c]> m) lk cw tr)
    = (Ok tt, World (<[path := c ++ encode (cat (map g xs))]> m) lk cw tr).
Proof.
  induction xs as [|x xs IH]; intros m lk cw tr c.
  { cbn [for_each map cat]. unfold ret. change (encode "") with (@nil byte).
    by rewrite app_nil_r. }
  cbn [for_each map cat]. unfold bind at 1. rewrite write_insert, IH.
  by rewrite encode_app, app_assoc.
Qed.

Lemma spv_to_constexpr_ok (inp out var : string) (data : list byte) (w : world) :
  files w !! inp = Some data → out ∉ locked w →
  SpvToConstexpr.spv_to_constexpr inp out var w
  = (Ok tt, written w out (declaration var data) [Opened inp RB; Opened out W]).
Proof.
  intros Hin Hout. destruct w as [m lk cw tr]. cbn [files locked] in Hin, Hout.
  unfold SpvToConstexpr.spv_to_constexpr, read_binary, open_w, bind, emit.
  cbn [files locked cwd trace]. rewrite Hin, decide_False by done.
  rewrite write_insert, for_each_write, write_insert.
  unfold written, declaration. cbn [files locked cwd trace].
  rewrite !encode_app, <- !app_assoc. done.
Qed.

Lemma spv_to_constexpr_no_input (inp out var : string) (w : world) :
  files w !! inp = None →
  SpvToConstexpr.spv_to_constexpr inp out var w
  = (Raised (OSError inp), logged w [Opened inp RB]).
Proof.
  intros Hin. destruct w as [m lk cw tr]. cbn [files] in Hin.
  unfold SpvToConstexpr.spv_to_constexpr, read_binary, bind, emit.
  cbn [files locked cwd trace]. by rewrite Hin.
Qed.

Lemma spv_to_constexpr_locked (inp out var : string) (data : list byte) (w : world) :
  files w !! inp = Some data → out ∈ locked w →
  SpvToConstexpr.spv_to_constexpr inp out var w
  = (Raised (OSError out), logged w [Opened inp RB; Opened out W]).
Proof.
  intros Hin Hout. destruct w as [m lk cw tr]. cbn [files locked] in Hin, Hout.
  unfold SpvToConstexpr.spv_to_constexpr, read_binary, open_w, bind, emit.
  cbn [files locked cwd trace]. rewrite Hin, decide_True by done.
  unfold logged. cbn [files locked cwd trace]. by rewrite <- app_assoc.
Qed.

Lemma generate_header_ok (name : string) (spv : list byte) (w : world) :
  files w !! spv_path name = Some spv → h_path name ∉ locked w →
  GenerateShaderHeaders.generate_header name w
  = (Ok tt, written w (h_path name) (header_text name spv)
              (prints w name ++ [Opened (spv_path name) RB; Opened (h_path name) W])).
Proof.
  intros Hin Hout. destruct w as [m lk cw tr]. cbn [files locked] in Hin, Hout.
  unfold GenerateShaderHeaders.generate_header, getcwd, print, read_binary,
    open_w, bind, emit.
  fold (spv_path name) (h_path name).
  cbn [files locked cwd trace]. rewrite Hin, decide_False by done.
  rewrite write_insert.
  unfold written, header_text, prints. cbn [files locked cwd trace Py.join app].
  rewrite <- !app_assoc. done.
Qed.

Lemma generate_header_no_input (name : string) (w : world) :
  files w !! spv_path name = None →
  GenerateShaderHeaders.generate_header name w
  = (Raised (OSError (spv_path name)),
     logged w (prints w name ++ [Opened (spv_path name) RB])).
Proof.
  intros Hin. destruct w as [m lk cw tr]. cbn [files] in Hin.
  unfold GenerateShaderHeaders.generate_header, getcwd, print, read_binary,
    bind, emit.
  fold (spv_path name).
  cbn [files locked cwd trace]. rewrite Hin.
  unfold logged, prints. cbn [files locked cwd trace Py.join app].
  rewrite <- !app_assoc. done.
Qed.

Lemma generate_header_locked (name : string) (spv : list byte) (w : world) :
  files w !! spv_path name = Some spv → h_path name ∈ locked w →
  GenerateShaderHeaders.generate_header name w
  = (Raised (OSError (h_path name)),
     logged w (prints w name ++ [Opened (spv_path name) RB; Opened (h_path name) W])).
Proof.
  intros Hin Hout. destruct w as [m lk cw tr]. cbn [files locked] in Hin, Hout.
  unfold GenerateShaderHeaders.generate_header, getcwd, print, read_binary,
    open_w, bind, emit.
  fold (spv_path name) (h_path name).
  cbn [files locked cwd trace]. rewrite Hin, decide_True by done.
  unfold logged, prints. cbn [files locked cwd trace Py.join app].
  rewrite <- !app_assoc. done.
Qed.

(** The input of [generate_header] is never its output. *)
Lemma spv_path_ne_h_path (a b : string) : spv_path a ≠ h_path b.
Proof.
  unfold spv_path, h_path. intros E.
  apply (f_equal (λ s, rev (Reader.chars s))) in E.
  rewrite !chars_app, !rev_app_distr in E. discriminate E.
Qed.

End Runs.

(** ** Stripping the byte-mode block *)

Section Strip.

Import Reader Content.

Lemma rstrip_app_keep (a b : string) :
  Py.rstrip b ≠ "" → Py.rstrip (a +:+ b) = a +:+ Py.rstrip b.
Proof.
  intros Hb. induction a as [|c a IH]; [done|].
  rewrite !str_app_cons. cbn [Py.rstrip]. rewrite IH.
  destruct a as [|c' a]; [|done].
  change ("" +:+ Py.rstrip b) with (Py.rstrip b).
  by destruct (Py.rstrip b).
Qed.

Lemma rstrip_app_blank (a b : string) :
  Py.rstrip b = "" → Py.rstrip (a +:+ b) = Py.rstrip a.
Proof.
  intros Hb. induction a as [|c a IH]; [done|].
  rewrite str_app_cons. cbn [Py.rstrip]. by rewrite IH.
Qed.

Lemma byte_token_rstrip (b : byte) :
  Py.rstrip (GenerateShaderHeaders.byte_token b)
  = GenerateShaderHeaders.byte_token b.
Proof. destruct b; reflexivity. Qed.


Lemma byte_token_nonempty (b : byte) : GenerateShaderHeaders.byte_token b ≠ "".
Proof. done. Qed.


(** A non-empty token line ends with a digit: nothing to strip. *)
Lemma spv_hex_array_rstrip (spv : list byte) :
  spv ≠ [] →
  Py.rstrip (GenerateShaderHeaders.spv_hex_array spv)
  = GenerateShaderHeaders.spv_hex_array spv
  ∧ GenerateShaderHeaders.spv_hex_array spv ≠ "".
Proof.
  unfold GenerateShaderHeaders.spv_hex_array.
  induction spv as [|b spv IH]; [done|]. intros _.
  destruct spv as [|b' spv].
  { cbn [map Py.join]. split; [apply byte_token_rstrip|done]. }
  destruct IH as [IH1 IH2]; [done|].
  remember (b' :: spv) as rest eqn:Hrest.
  assert (Py.join ", " (map GenerateShaderHeaders.byte_token (b :: rest))
          = GenerateShaderHeaders.byte_token b +:+ ", "
            +:+ Py.join ", " (map GenerateShaderHeaders.byte_token rest)) as ->.
  { by rewrite Hrest. }
  split; [|done].
  rewrite rstrip_app_keep; [by rewrite rstrip_app_keep, IH1 by (by rewrite IH1)|].
  by rewrite rstrip_app_keep, IH1 by (by rewrite IH1).
Qed.


Lemma rstrip_chain (a b r : string) :
  Py.rstrip b = r → r ≠ "" →
  Py.rstrip (a +:+ b) = a +:+ r ∧ a +:+ r ≠ "".
Proof.
  intros Hb Hr. split.
  - rewrite rstrip_app_keep; by rewrite Hb.
  - destruct a; [done|]. by rewrite str_app_cons.
Qed.

(** The comment line followed by [tail] is left alone by [rstrip] as soon
    as [rstrip] leaves [tail] alone. *)
Lemma rstrip_block (name tail r : string) :
  Py.rstrip (".h" +:+ tail) = ".h" +:+ r →
  Py.rstrip ("// " +:+ name +:+ ".h" +:+ tail) = "// " +:+ name +:+ ".h" +:+ r.
Proof.
  intros H.
  destruct (rstrip_chain name _ _ H) as [H1 N1]; [done|].
  by destruct (rstrip_chain "// " _ _ H1 N1) as [H2 _].
Qed.

(** The stripped block: the comment line, then, unless the payload is
    empty, a newline and the indented token line. *)
Lemma header_text_eq (name : string) (spv : list byte) :
  header_text name spv
  = "// " +:+ name +:+ ".h"
    +:+ match spv with
        | [] => ""
        | _ => nl +:+ "    " +:+ GenerateShaderHeaders.spv_hex_array spv
        end.
Proof.
  unfold header_text, Py.strip.
  change (Py.lstrip (GenerateShaderHeaders.header_content name spv))
    with ("// " +:+ name +:+ ".h" +:+ nl +:+ "    "
          +:+ GenerateShaderHeaders.spv_hex_array spv +:+ nl +:+ "    ").
  apply rstrip_block.
  destruct spv as [|b spv]; [reflexivity|].
  destruct (spv_hex_array_rstrip (b :: spv)) as [H1 N1]; [done|].
  assert (Py.rstrip (GenerateShaderHeaders.spv_hex_array (b :: spv)
                     +:+ nl +:+ "    ")
          = GenerateShaderHeaders.spv_hex_array (b :: spv)) as H2.
  { by rewrite rstrip_app_blank. }
  destruct (rstrip_chain "    " _ _ H2 N1) as [H3 N3].
  destruct (rstrip_chain nl _ _ H3 N3) as [H4 N4].
  by destruct (rstrip_chain ".h" _ _ H4 N4) as [H5 _].
Qed.

Lemma header_text_stripped (name : string) (spv : list byte) :
  Py.strip (header_text name spv) = header_text name spv.
Proof.
  rewrite header_text_eq. unfold Py.strip.
  change (Py.lstrip ("// " +:+ name +:+ ".h" +:+ ?t))
    with ("// " +:+ name +:+ ".h" +:+ t).
  apply rstrip_block.
  destruct spv as [|b spv]; [reflexivity|].
  destruct (spv_hex_array_rstrip (b :: spv)) as [H1 N1]; [done|].
  destruct (rstrip_chain "    " _ _ H1 N1) as [H3 N3].
  destruct (rstrip_chain nl _ _ H3 N3) as [H4 N4].
  by destruct (rstrip_chain ".h" _ _ H4 N4) as [H5 _].
Qed.

End Strip.

(** ** The word-mode declaration *)

Section WordMode.

Import IO Reader Content.

Lemma word_mode_output_ok (inp out var : string) (data : list byte) (w : world) :
  files w !! inp = Some data → out ∉ locked w →
  word_mode_output inp out var w = Some (declaration var data).
Proof.
  intros Hin Hout. unfold word_mode_output.
  rewrite (spv_to_constexpr_ok _ _ _ data) by done.
  unfold written. cbn [files]. rewrite lookup_insert_eq. cbn.
  by rewrite decode_encode.
Qed.

(** C1. For every payload whose length is a multiple of four, the file
    written by the word-mode transcoder, read back literal by literal
    -- each [0x] literal parsed to its group of four bytes and each group
    byte-reversed -- is the payload again. *)
Theorem word_mode_round_trip
    (inp out var : string) (S : list byte) (w : world) :
  files w !! inp = Some S → out ∉ locked w → length S mod 4 = 0 →
  ∃ text, word_mode_output inp out var w = Some text
          ∧ payload_of var text = Some S.
Proof.
  intros Hin Hout Hlen. exists (declaration var S).
  split; [by apply word_mode_output_ok|by apply declaration_payload].
Qed.

Lemma word_mode_round_trip_witness :
  ∃ text,
    word_mode_output "shaders/vert.spv" "vert.h" "vert_spv" Sample.disk
    = Some text
    ∧ payload_of "vert_spv" text
      = Some [x03; x02; x23; x07; x00; x00; x01; x00]%byte.
Proof.
  apply (word_mode_round_trip "shaders/vert.spv" "vert.h" "vert_spv"
           [x03; x02; x23; x07; x00; x00; x01; x00]%byte Sample.disk).
  - vm_compute. reflexivity.
  - vm_compute. intros H. discriminate H.
  - reflexivity.
Defined.

End WordMode.

(** ** The shape of the word-mode lines *)

Section WordLines.

Import IO Reader Content.

Lemma map_lookup_Some {A B} (f : A → B) (xs : list A) (k : nat) (y : B) :
  map f xs !! k = Some y → ∃ x, xs !! k = Some x ∧ y = f x.
Proof.
  revert k. induction xs as [|x xs IH]; intros [|k] H; try done.
  - injection H as <-. by exists x.
  - by apply IH.
Qed.

Lemma chunks4_lookup_length (data : list byte) :
  ∀ k g, chunks4 data !! k = Some g →
         length g = Nat.min 4 (length data - 4 * k).
Proof.
  induction data as [|a|a b|a b c|a b c d r IH] using list_ind4;
    intros k g H.
  - done.
  - destruct k; [by injection H as <-|done].
  - destruct k; [by injection H as <-|done].
  - destruct k; [by injection H as <-|done].
  - destruct k as [|k].
    + injection H as <-. cbn [length]. lia.
    + cbn [chunks4] in H. change ((?x :: ?l) !! S k) with (l !! k) in H.
      rewrite (IH k g H). cbn [length]. lia.
Qed.

Lemma word_line_ok_token (g : list byte) :
  word_line_ok (2 * length g) ("    " +:+ ("0x" +:+ Py.hex g) +:+ ",") = true.
Proof.
  unfold word_line_ok.
  assert (chars ("    " +:+ ("0x" +:+ Py.hex g) +:+ ",")
          = chars "    0x" ++ chars (Py.hex g) ++ [","%char]) as ->.
  { by rewrite !chars_app. }
  pose proof (hex_chars_length g) as Hlen.
  rewrite take_app_length' by done.
  rewrite drop_app_length' by done.
  rewrite take_app_length' by done.
  rewrite hex_chars_lower.
  rewrite app_assoc, drop_app_length' by (rewrite length_app, Hlen; done).
  rewrite !length_app, Hlen.
  rewrite !bool_decide_eq_true_2; done.
Qed.

Lemma declaration_shape (var : string) (data : list byte) :
  declaration_of (group_digits (length data)) var (declaration var data).
Proof.
  split; [|split].
  - by eexists.
  - exists (("constexpr uint32_t " +:+ var +:+ "[] = {" +:+ nl)
            +:+ cat (map (SpvToConstexpr.body_line data)
                       (Py.range 0 (length data) 4))).
    unfold declaration. by rewrite !str_app_assoc.
  - eexists. split; [apply declaration_lines|].
    intros k l Hl. rewrite word_tokens_chunks, map_map in Hl.
    apply map_lookup_Some in Hl as (g & Hg & ->).
    unfold group_digits. rewrite <- (chunks4_lookup_length _ _ _ Hg).
    rewrite <- (length_rev g). apply word_line_ok_token.
Qed.

(** C2, amended. For every payload and every variable name the
    word-mode output begins with the line
    [constexpr uint32_t <var_name>[] = {], ends with [};] and a final
    newline, and has [ceil(len/4)] body lines between them, each made of
    four spaces, [0x], lowercase hexadecimal digits and a trailing comma.
    Every body line but the last has exactly eight digits; the last has
    eight when the payload length is a multiple of four and
    [2 * (len mod 4)] otherwise. *)
Theorem word_mode_shape
    (inp out var : string) (data : list byte) (w : world) :
  files w !! inp = Some data → out ∉ locked w →
  ∃ text body,
    word_mode_output inp out var w = Some text
    ∧ declaration_of (group_digits (length data)) var text
    ∧ body_lines var text = Some body
    ∧ length body = (length data + 3) / 4
    ∧ (∀ k l, body !! k = Some l → k + 1 < length body →
         word_line_ok 8 l = true)
    ∧ (length data mod 4 ≠ 0 →
       ∃ l, last body = Some l
            ∧ word_line_ok (2 * (length data mod 4)) l = true)
    ∧ (length data mod 4 = 0 → declaration_of eight_digits var text).
Proof.
  intros Hin Hout.
  exists (declaration var data),
         (map (λ t, "    " +:+ t +:+ ",") (word_tokens data)).
  split; [by apply word_mode_output_ok|].
  pose proof (declaration_shape var data) as Hshape.
  split; [done|]. split; [apply declaration_lines|].
  assert (length (map (λ t, "    " +:+ t +:+ ",") (word_tokens data))
          = (length data + 3) / 4) as Hlen.
  { by rewrite length_map, word_tokens_chunks, length_map, length_chunks4. }
  split; [done|].
  destruct Hshape as (Hs & He & body & Hb & Hall).
  rewrite declaration_lines in Hb. injection Hb as <-.
  pose proof (Nat.div_mod_eq (length data + 3) 4) as Hd3.
  pose proof (Nat.mod_upper_bound (length data + 3) 4 ltac:(lia)) as Hr3.
  split; [|split].
  - intros k l Hl Hk. specialize (Hall k l Hl).
    unfold group_digits in Hall. rewrite Hlen in Hk.
    replace (Nat.min 4 (length data - 4 * k)) with 4 in Hall; [done|lia].
  - intros Hm. destruct (chunks4_last data Hm) as (full & Hfull & _).
    eexists. split.
    + rewrite word_tokens_chunks, Hfull, !map_app. cbn [map].
      apply last_snoc.
    + pose proof (word_line_ok_token
                    (rev (drop (length data - length data mod 4) data)))
        as Hok.
      rewrite length_rev, length_drop in Hok.
      pose proof (Nat.Div0.mod_le (length data) 4).
      by replace (length data - (length data - length data mod 4))
        with (length data mod 4) in Hok by lia.
  - intros Hm. split; [done|]. split; [done|].
    eexists. split; [apply declaration_lines|].
    intros k l Hl. specialize (Hall k l Hl).
    unfold group_digits in Hall. unfold eight_digits.
    assert (k < (length data + 3) / 4) as Hk.
    { rewrite <- Hlen. by eapply lookup_lt_Some. }
    pose proof (Nat.div_mod_eq (length data) 4) as Hd. rewrite Hm in Hd.
    replace (Nat.min 4 (length data - 4 * k)) with 4 in Hall; [done|lia].
Qed.

Lemma word_mode_shape_witness :
  (∃ text body,
     word_mode_output "five.spv" "five.h" "five" Sample2.five = Some text
     ∧ declaration_of (group_digits 5) "five" text
     ∧ body_lines "five" text = Some body
     ∧ length body = 2
     ∧ (∃ l, last body = Some l ∧ word_line_ok 2 l = true))
  ∧ (∃ text,
       word_mode_output "shaders/frag.spv" "frag.inc" "frag_spv" Sample.disk
       = Some text
       ∧ declaration_of eight_digits "frag_spv" text).
Proof.
  split.
  - destruct (word_mode_shape "five.spv" "five.h" "five"
                [x01; x02; x03; x04; x05]%byte Sample2.five)
      as (text & body & Ht & Hg & Hb & Hn & _ & Hlast & _).
    + vm_compute. reflexivity.
    + vm_compute. intros H. discriminate H.
    + exists text, body. split; [exact Ht|]. split; [exact Hg|].
      split; [exact Hb|]. split; [exact Hn|].
      apply Hlast. vm_compute. intros H. discriminate H.
  - destruct (word_mode_shape "shaders/frag.spv" "frag.inc" "frag_spv"
                [xde; xad; xbe; xef]%byte Sample.disk)
      as (text & body & Ht & _ & _ & _ & _ & _ & H8).
    + vm_compute. reflexivity.
    + vm_compute. intros H. discriminate H.
    + exists text. split; [exact Ht|]. apply H8. reflexivity.
Defined.

(** C2 with eight digits on every line does not hold: the one-byte payload
    [01] gives the body line [    0x01,], with two digits. *)
Lemma word_mode_eight_digits_fails :
  word_mode_output "odd.spv" "odd.h" "foo" Sample.disk
  = Some ("constexpr uint32_t foo[] = {" +:+ nl
          +:+ "    0x01," +:+ nl
          +:+ "};" +:+ nl)
  ∧ ¬ declaration_of eight_digits "foo"
        ("constexpr uint32_t foo[] = {" +:+ nl
         +:+ "    0x01," +:+ nl
         +:+ "};" +:+ nl).
Proof.
  split; [by vm_compute|].
  intros (_ & _ & body & Hb & Hall).
  vm_compute in Hb. injection Hb as <-.
  specialize (Hall 0 _ eq_refl). vm_compute in Hall. discriminate Hall.
Qed.

(** C9. For the input bytes [de ad be ef] and the variable name [foo] the
    word-mode transcoder writes exactly the opening line
    [constexpr uint32_t foo[] = {], the line [    0xefbeadde,] and the
    closing line [};], each ended by a newline. *)
Theorem word_mode_deadbeef (inp out : string) (w : world) :
  files w !! inp = Some [xde; xad; xbe; xef]%byte → out ∉ locked w →
  word_mode_output inp out "foo" w
  = Some ("constexpr uint32_t foo[] = {" +:+ nl
          +:+ "    0xefbeadde," +:+ nl
          +:+ "};" +:+ nl).
Proof.
  intros Hin Hout.
  by rewrite (word_mode_output_ok _ _ _ _ _ Hin Hout).
Qed.

Lemma word_mode_deadbeef_witness :
  word_mode_output "shaders/frag.spv" "foo.h" "foo" Sample.disk
  = Some ("constexpr uint32_t foo[] = {" +:+ nl
          +:+ "    0xefbeadde," +:+ nl
          +:+ "};" +:+ nl).
Proof.
  apply (word_mode_deadbeef "shaders/frag.spv" "foo.h" Sample.disk).
  - vm_compute. reflexivity.
  - vm_compute. intros H. discriminate H.
Defined.

End WordLines.

(** ** Counting the literals *)

Section Tokens.

Import IO Reader Content.


Lemma hex_length (bs : list byte) : String.length (Py.hex bs) = 2 * length bs.
Proof. rewrite str_length_chars. apply hex_chars_length. Qed.




Lemma byte_mode_output_ok (name : string) (spv : list byte) (w : world) :
  files w !! spv_path name = Some spv → h_path name ∉ locked w →
  byte_mode_output name w = Some (header_text name spv).
Proof.
  intros Hin Hout. unfold byte_mode_output.
  rewrite (generate_header_ok _ spv) by done.
  unfold written. cbn [files]. rewrite lookup_insert_eq. cbn.
  by rewrite decode_encode.
Qed.

(** C5. The byte-mode file is the comment line [// <name>.h] followed by
    one line holding the tokens separated by a comma and a space; the
    block is stripped of leading and trailing white space as a whole, so
    the token line keeps its indentation of four spaces, and with an
    empty payload the empty token line is stripped away with the newline
    before it. *)
Theorem byte_mode_file (name : string) (spv : list byte) (w : world) :
  files w !! spv_path name = Some spv → h_path name ∉ locked w →
  ∃ text,
    byte_mode_output name w = Some text
    ∧ text = "// " +:+ name +:+ ".h"
             +:+ match spv with
                 | [] => ""
                 | _ => nl +:+ "    " +:+ Py.join ", " (byte_tokens spv)
                 end
    ∧ Py.strip text = text.
Proof.
  intros Hin Hout. exists (header_text name spv).
  split; [by apply byte_mode_output_ok|].
  split; [apply header_text_eq|apply header_text_stripped].
Qed.

Lemma byte_mode_file_witness :
  ∃ text,
    byte_mode_output "frag" Sample.other_disk = Some text
    ∧ text = "// " +:+ "frag" +:+ ".h"
             +:+ nl +:+ "    "
             +:+ Py.join ", " (byte_tokens [xde; xad; xbe; xef]%byte)
    ∧ Py.strip text = text.
Proof.
  apply (byte_mode_file "frag" [xde; xad; xbe; xef]%byte Sample.other_disk).
  - vm_compute. reflexivity.
  - vm_compute. intros H. discriminate H.
Defined.

End Tokens.

(** ** Failures *)

Section Failures.

Import IO Content.

(** C6. With fewer than three positional arguments (the elements of
    [sys.argv] after the script name) the word-mode CLI prints the usage
    line and exits with status 1; it opens no file, so no output file is
    created or modified. *)
Theorem usage_error (argv : list string) (w : world) :
  length (tail argv) < 3 →
  SpvToConstexpr.main argv w
  = (Raised (SystemExit 1), logged w [Printed SpvToConstexpr.usage])
  ∧ exit_status (fst (SpvToConstexpr.main argv w)) = 1%Z
  ∧ files (snd (SpvToConstexpr.main argv w)) = files w.
Proof.
  intros Hargs.
  assert (SpvToConstexpr.main argv w
          = (Raised (SystemExit 1), logged w [Printed SpvToConstexpr.usage]))
    as Hmain.
  { unfold SpvToConstexpr.main.
    destruct (Nat.ltb_spec (length argv) 4) as [_|Hge].
    - reflexivity.
    - destruct argv as [|prog args]; cbn [tail length] in *; lia. }
  by rewrite Hmain.
Qed.

Lemma usage_error_witness :
  SpvToConstexpr.main ["spv_to_constexpr.py"; "shaders/vert.spv"; "vert.h"]
    Sample.disk
  = (Raised (SystemExit 1), logged Sample.disk [Printed SpvToConstexpr.usage])
  ∧ exit_status
      (fst (SpvToConstexpr.main
              ["spv_to_constexpr.py"; "shaders/vert.spv"; "vert.h"]
              Sample.disk)) = 1%Z
  ∧ files (snd (SpvToConstexpr.main
                  ["spv_to_constexpr.py"; "shaders/vert.spv"; "vert.h"]
                  Sample.disk))
    = files Sample.disk.
Proof.
  apply (usage_error ["spv_to_constexpr.py"; "shaders/vert.spv"; "vert.h"]
           Sample.disk).
  cbn. lia.
Defined.

(** C7. The batch driver handles [vert], then [frag].  A read failure on
    [vert] ends the run there: [frag] is never announced or opened and no
    header is written.  A read failure on [frag] ends the run after the
    header of [vert]: [frag.h] is not opened.  When nothing fails the
    events of [vert] come before those of [frag]. *)
Theorem batch_aborts (w : world) :
  GenerateShaderHeaders.shaders = ["vert"; "frag"]
  ∧ (files w !! spv_path "vert" = None →
     GenerateShaderHeaders.main w
     = (Raised (OSError (spv_path "vert")),
        logged w (prints w "vert" ++ [Opened (spv_path "vert") RB])))
  ∧ (∀ vert, files w !! spv_path "vert" = Some vert →
       h_path "vert" ∉ locked w →
       files w !! spv_path "frag" = None →
       GenerateShaderHeaders.main w
       = (Raised (OSError (spv_path "frag")),
          written w (h_path "vert") (header_text "vert" vert)
            (prints w "vert"
             ++ [Opened (spv_path "vert") RB; Opened (h_path "vert") W]
             ++ prints w "frag" ++ [Opened (spv_path "frag") RB])))
  ∧ (∀ vert frag, files w !! spv_path "vert" = Some vert →
       h_path "vert" ∉ locked w →
       files w !! spv_path "frag" = Some frag →
       h_path "frag" ∉ locked w →
       GenerateShaderHeaders.main w
       = (Ok tt,
          written
            (written w (h_path "vert") (header_text "vert" vert)
               (prints w "vert"
                ++ [Opened (spv_path "vert") RB; Opened (h_path "vert") W]))
            (h_path "frag") (header_text "frag" frag)
            (prints w "frag"
             ++ [Opened (spv_path "frag") RB; Opened (h_path "frag") W]))).
Proof.
  split; [done|].
  unfold GenerateShaderHeaders.main, GenerateShaderHeaders.shaders.
  cbn [for_each]. unfold bind at 1 3 5.
  split; [|split].
  - intros Hv. by rewrite generate_header_no_input.
  - intros vert Hv Hl Hf.
    rewrite (generate_header_ok _ vert) by done.
    unfold bind. rewrite generate_header_no_input.
    + unfold written, logged, prints. cbn [files locked cwd trace].
      by rewrite <- !app_assoc.
    + unfold written. cbn [files].
      rewrite lookup_insert_ne; [done|].
      intros E. by apply (spv_path_ne_h_path "frag" "vert").
  - intros vert frag Hv Hl Hf Hlf.
    rewrite (generate_header_ok _ vert) by done.
    unfold bind. rewrite (generate_header_ok _ frag).
    + done.
    + unfold written. cbn [files].
      rewrite lookup_insert_ne; [done|].
      intros E. by apply (spv_path_ne_h_path "frag" "vert").
    + done.
Qed.

Lemma batch_aborts_witness :
  GenerateShaderHeaders.main Sample.bare
  = (Raised (OSError "shaders/vert.spv"),
     logged Sample.bare
       [Printed "Current working directory: /build";
        Printed "Trying to open: shaders/vert.spv";
        Opened "shaders/vert.spv" RB])
  ∧ GenerateShaderHeaders.main Sample.vert_only
    = (Raised (OSError "shaders/frag.spv"),
       written Sample.vert_only "shaders/vert.h"
         (header_text "vert" [x03; x02; x23; x07]%byte)
         [Printed "Current working directory: /build";
          Printed "Trying to open: shaders/vert.spv";
          Opened "shaders/vert.spv" RB; Opened "shaders/vert.h" W;
          Printed "Current working directory: /build";
          Printed "Trying to open: shaders/frag.spv";
          Opened "shaders/frag.spv" RB])
  ∧ fst (GenerateShaderHeaders.main Sample.other_disk) = Ok tt.
Proof.
  split; [|split].
  - apply (proj1 (proj2 (batch_aborts Sample.bare))).
    vm_compute. reflexivity.
  - apply (proj1 (proj2 (proj2 (batch_aborts Sample.vert_only)))
             [x03; x02; x23; x07]%byte).
    + vm_compute. reflexivity.
    + vm_compute. intros H. discriminate H.
    + vm_compute. reflexivity.
  - rewrite (proj2 (proj2 (proj2 (batch_aborts Sample.other_disk)))
               [x03; x02; x23; x07; x00; x00; x01; x00]%byte
               [xde; xad; xbe; xef]%byte).
    + reflexivity.
    + vm_compute. reflexivity.
    + vm_compute. intros H. discriminate H.
    + vm_compute. reflexivity.
    + vm_compute. intros H. discriminate H.
Defined.

End Failures.

(** ** Independence from the rest of the world *)

Section Reruns.

Import IO Content.

(** C10. In both transcoders the input is opened and read before the
    output is opened.  When the input cannot be opened the run raises on
    that [open]: no file is created, truncated or changed, and the output
    path is never opened.  When it can, the trace shows the input opened
    first. *)
Theorem input_failure_is_atomic
    (inp out var name : string) (w : world) :
  (files w !! inp = None →
   SpvToConstexpr.spv_to_constexpr inp out var w
   = (Raised (OSError inp), logged w [Opened inp RB])
   ∧ files (snd (SpvToConstexpr.spv_to_constexpr inp out var w)) = files w)
  ∧ (files w !! spv_path name = None →
     GenerateShaderHeaders.generate_header name w
     = (Raised (OSError (spv_path name)),
        logged w (prints w name ++ [Opened (spv_path name) RB]))
     ∧ files (snd (GenerateShaderHeaders.generate_header name w)) = files w)
  ∧ (∀ data, files w !! inp = Some data →
       trace (snd (SpvToConstexpr.spv_to_constexpr inp out var w))
       = trace w ++ [Opened inp RB; Opened out W])
  ∧ (∀ spv, files w !! spv_path name = Some spv →
       trace (snd (GenerateShaderHeaders.generate_header name w))
       = trace w ++ prints w name
         ++ [Opened (spv_path name) RB; Opened (h_path name) W]).
Proof.
  split; [|split; [|split]].
  - intros Hin. by rewrite spv_to_constexpr_no_input.
  - intros Hin. by rewrite generate_header_no_input.
  - intros data Hin. destruct (decide (out ∈ locked w)).
    + by rewrite (spv_to_constexpr_locked _ _ _ data).
    + by rewrite (spv_to_constexpr_ok _ _ _ data).
  - intros spv Hin. destruct (decide (h_path name ∈ locked w)).
    + by rewrite (generate_header_locked _ spv).
    + by rewrite (generate_header_ok _ spv).
Qed.

Lemma input_failure_is_atomic_witness :
  (SpvToConstexpr.spv_to_constexpr "missing.spv" "shaders/vert.h" "v"
     Sample.disk
   = (Raised (OSError "missing.spv"),
      logged Sample.disk [Opened "missing.spv" RB])
   ∧ files (snd (SpvToConstexpr.spv_to_constexpr
                   "missing.spv" "shaders/vert.h" "v" Sample.disk))
     = files Sample.disk)
  ∧ (GenerateShaderHeaders.generate_header "vert" Sample.bare
     = (Raised (OSError "shaders/vert.spv"),
        logged Sample.bare
          [Printed "Current working directory: /build";
           Printed "Trying to open: shaders/vert.spv";
           Opened "shaders/vert.spv" RB])
     ∧ files (snd (GenerateShaderHeaders.generate_header "vert" Sample.bare))
       = files Sample.bare)
  ∧ trace (snd (SpvToConstexpr.spv_to_constexpr
                  "odd.spv" "odd.h" "odd" Sample.disk))
    = [Printed "make"; Opened "odd.spv" RB; Opened "odd.h" W]
  ∧ trace (snd (GenerateShaderHeaders.generate_header "frag" Sample.disk))
    = [Printed "make";
       Printed "Current working directory: /build";
       Printed "Trying to open: shaders/frag.spv";
       Opened "shaders/frag.spv" RB; Opened "shaders/frag.h" W].
Proof.
  split; [|split; [|split]].
  - apply (proj1 (input_failure_is_atomic
                    "missing.spv" "shaders/vert.h" "v" "vert" Sample.disk)).
    vm_compute. reflexivity.
  - apply (proj1 (proj2 (input_failure_is_atomic
                           "missing.spv" "shaders/vert.h" "v" "vert"
                           Sample.bare))).
    vm_compute. reflexivity.
  - apply (proj1 (proj2 (proj2 (input_failure_is_atomic
                                  "odd.spv" "odd.h" "odd" "frag"
                                  Sample.disk)))
             [x01]%byte).
    vm_compute. reflexivity.
  - apply (proj2 (proj2 (proj2 (input_failure_is_atomic
                                  "odd.spv" "odd.h" "odd" "frag"
                                  Sample.disk)))
             [xde; xad; xbe; xef]%byte).
    vm_compute. reflexivity.
Defined.

(** C8. Each transcoder's output file depends on the input bytes and the
    names only.  Two runs of the word-mode transcoder that find the same
    bytes in the input write the same bytes to the output, whatever else
    the two worlds hold and whatever the output held before; and when the
    input still holds those bytes after a run, running again changes no
    file.  The same holds, separately, for the byte-mode transcoder. *)
Theorem reruns_agree
    (inp out var name : string) (data spv : list byte) (w1 w2 : world) :
  (files w1 !! inp = Some data → files w2 !! inp = Some data →
   out ∉ locked w1 → out ∉ locked w2 →
   let r1 := SpvToConstexpr.spv_to_constexpr inp out var w1 in
   let r2 := SpvToConstexpr.spv_to_constexpr inp out var w2 in
   fst r1 = Ok tt ∧ fst r2 = Ok tt
   ∧ is_Some (files (snd r1) !! out)
   ∧ files (snd r1) !! out = files (snd r2) !! out
   ∧ (files (snd r1) !! inp = Some data →
      let r1' := SpvToConstexpr.spv_to_constexpr inp out var (snd r1) in
      fst r1' = Ok tt ∧ files (snd r1') = files (snd r1)))
  ∧ (files w1 !! spv_path name = Some spv →
     files w2 !! spv_path name = Some spv →
     h_path name ∉ locked w1 → h_path name ∉ locked w2 →
     let g1 := GenerateShaderHeaders.generate_header name w1 in
     let g2 := GenerateShaderHeaders.generate_header name w2 in
     fst g1 = Ok tt ∧ fst g2 = Ok tt
     ∧ is_Some (files (snd g1) !! h_path name)
     ∧ files (snd g1) !! h_path name = files (snd g2) !! h_path name
     ∧ (files (snd g1) !! spv_path name = Some spv →
        let g1' := GenerateShaderHeaders.generate_header name (snd g1) in
        fst g1' = Ok tt ∧ files (snd g1') = files (snd g1))).
Proof.
  split.
  - intros Hi1 Hi2 Ho1 Ho2. cbv zeta.
    rewrite (spv_to_constexpr_ok _ _ _ data w1) by done.
    rewrite (spv_to_constexpr_ok _ _ _ data w2) by done.
    cbn [fst snd].
    split; [done|]. split; [done|].
    split; [unfold written; cbn [files]; rewrite lookup_insert_eq; by eexists|].
    split; [unfold written; cbn [files]; by rewrite !lookup_insert_eq|].
    intros Hagain.
    rewrite (spv_to_constexpr_ok _ _ _ data) by done.
    cbn [fst snd]. split; [done|].
    unfold written. cbn [files]. by rewrite insert_insert_eq.
  - intros Hs1 Hs2 Hh1 Hh2. cbv zeta.
    rewrite (generate_header_ok _ spv w1) by done.
    rewrite (generate_header_ok _ spv w2) by done.
    cbn [fst snd].
    split; [done|]. split; [done|].
    split; [unfold written; cbn [files]; rewrite lookup_insert_eq; by eexists|].
    split; [unfold written; cbn [files]; by rewrite !lookup_insert_eq|].
    intros Hagain.
    rewrite (generate_header_ok _ spv) by done.
    cbn [fst snd]. split; [done|].
    unfold written. cbn [files]. by rewrite insert_insert_eq.
Qed.

Lemma reruns_agree_witness :
  (let r1 := SpvToConstexpr.spv_to_constexpr
               "shaders/vert.spv" "shaders/vert.h" "vert_spv" Sample.disk in
   let r2 := SpvToConstexpr.spv_to_constexpr
               "shaders/vert.spv" "shaders/vert.h" "vert_spv"
               Sample.other_disk in
   let r1' := SpvToConstexpr.spv_to_constexpr
                "shaders/vert.spv" "shaders/vert.h" "vert_spv" (snd r1) in
   files (snd r1) !! "shaders/vert.h" = files (snd r2) !! "shaders/vert.h"
   ∧ fst r1' = Ok tt ∧ files (snd r1') = files (snd r1))
  ∧ (let r1 := SpvToConstexpr.spv_to_constexpr
                 "empty.spv" "empty.h" "e" Sample2.empty_input in
     fst r1 = Ok tt ∧ is_Some (files (snd r1) !! "empty.h"))
  ∧ (let g1 := GenerateShaderHeaders.generate_header "vert" Sample.disk in
     let g2 := GenerateShaderHeaders.generate_header "vert"
                 Sample.other_disk in
     let g1' := GenerateShaderHeaders.generate_header "vert" (snd g1) in
     files (snd g1) !! "shaders/vert.h" = files (snd g2) !! "shaders/vert.h"
     ∧ fst g1' = Ok tt ∧ files (snd g1') = files (snd g1)).
Proof.
  split; [|split].
  - destruct (proj1 (reruns_agree
                       "shaders/vert.spv" "shaders/vert.h" "vert_spv" "vert"
                       [x03; x02; x23; x07; x00; x00; x01; x00]%byte []
                       Sample.disk Sample.other_disk))
      as (_ & _ & _ & Hsame & Hagain).
    + vm_compute. reflexivity.
    + vm_compute. reflexivity.
    + vm_compute. intros H. discriminate H.
    + vm_compute. intros H. discriminate H.
    + split; [exact Hsame|]. apply Hagain. vm_compute. reflexivity.
  - destruct (proj1 (reruns_agree "empty.spv" "empty.h" "e" "none" [] []
                       Sample2.empty_input Sample2.empty_input))
      as (Hok & _ & Hsome & _).
    + vm_compute. reflexivity.
    + vm_compute. reflexivity.
    + vm_compute. intros H. discriminate H.
    + vm_compute. intros H. discriminate H.
    + split; [exact Hok|exact Hsome].
  - destruct (proj2 (reruns_agree "unused.spv" "unused.h" "unused" "vert" []
                       [x03; x02; x23; x07; x00; x00; x01; x00]%byte
                       Sample.disk Sample.other_disk))
      as (_ & _ & _ & Hsame & Hagain).
    + vm_compute. reflexivity.
    + vm_compute. reflexivity.
    + vm_compute. intros H. discriminate H.
    + vm_compute. intros H. discriminate H.
    + split; [exact Hsame|]. apply Hagain. vm_compute. reflexivity.
Defined.

End Reruns.

(** * Further properties of the two transcoders *)

(** ** What the literals mean *)

Section Meaning.

Import IO Reader Content.

Lemma token_bytes_hex (g : list byte) :
  Consumer.token_bytes ("0x" +:+ Py.hex g) = Some g.
Proof.
  unfold Consumer.token_bytes. by rewrite strip_prefix_app, unhex_hex.
Qed.

Lemma declaration_payload_any (var : string) (data : list byte) :
  Consumer.payload_of var (declaration var data) = Some data.
Proof.
  unfold Consumer.payload_of.
  rewrite declaration_lines, map_map, word_tokens_chunks, map_map.
  rewrite (all_some_ext _ (λ g, rev g)).
  - rewrite map_map.
    rewrite (map_ext _ id) by (intros g; apply rev_involutive).
    by rewrite map_id, concat_chunks4.
  - apply Forall_forall. intros g _. cbn beta.
    rewrite line_token_line. apply token_bytes_hex.
Qed.

(** X1. Whatever the length of the payload, the word-mode file determines
    it: reading every literal back to its bytes (a short last literal
    included), reversing each group and concatenating gives the payload. *)
Theorem word_mode_round_trip_any_length
    (inp out var : string) (data : list byte) (w : world) :
  files w !! inp = Some data → out ∉ locked w →
  ∃ text, word_mode_output inp out var w = Some text
          ∧ Consumer.payload_of var text = Some data.
Proof.
  intros Hin Hout. exists (declaration var data).
  split; [by apply word_mode_output_ok|apply declaration_payload_any].
Qed.

Lemma word_mode_round_trip_any_length_witness :
  ∃ text, word_mode_output "odd.spv" "odd.h" "odd" Sample.disk = Some text
          ∧ Consumer.payload_of "odd" text = Some [x01]%byte.
Proof.
  apply (word_mode_round_trip_any_length "odd.spv" "odd.h" "odd"
           [x01]%byte Sample.disk).
  - vm_compute. reflexivity.
  - vm_compute. intros H. discriminate H.
Defined.

(** X2. Two word-mode runs with the same variable name that leave the
    same text were given the same payload: no two payloads share a
    declaration. *)
Theorem word_mode_injective
    (inp1 out1 inp2 out2 var : string) (d1 d2 : list byte) (w1 w2 : world) :
  files w1 !! inp1 = Some d1 → out1 ∉ locked w1 →
  files w2 !! inp2 = Some d2 → out2 ∉ locked w2 →
  word_mode_output inp1 out1 var w1 = word_mode_output inp2 out2 var w2 →
  d1 = d2.
Proof.
  intros Hi1 Ho1 Hi2 Ho2 Heq.
  rewrite (word_mode_output_ok _ _ _ d1) in Heq by done.
  rewrite (word_mode_output_ok _ _ _ d2) in Heq by done.
  apply (inj Some) in Heq.
  pose proof (declaration_payload_any var d1) as H1.
  rewrite Heq, declaration_payload_any in H1. by apply (inj Some) in H1.
Qed.

Lemma word_mode_injective_witness :
  [xde; xad; xbe; xef]%byte = [xde; xad; xbe; xef]%byte.
Proof.
  apply (word_mode_injective "shaders/frag.spv" "a.h" "shaders/frag.spv" "b.h"
           "frag" _ _ Sample.disk Sample.other_disk).
  - vm_compute. reflexivity.
  - vm_compute. intros H. discriminate H.
  - vm_compute. reflexivity.
  - vm_compute. intros H. discriminate H.
  - vm_compute. reflexivity.
Defined.

Lemma hex_value_byte (acc : N) (b : byte) (rest : list ascii) :
  Consumer.hex_value_go acc (chars (Py.format_02x b) ++ rest)
  = Consumer.hex_value_go (256 * acc + Byte.to_N b) rest.
Proof.
  destruct (format_02x_chars b) as (hi & lo & E & _).
  rewrite E. cbn [app Consumer.hex_value_go].
  assert (unhex_digit hi = Some (Byte.to_N b / 16)%N
          ∧ unhex_digit lo = Some (Byte.to_N b mod 16)%N) as [-> ->].
  { destruct b; injection E as <- <-; split; reflexivity. }
  f_equal.
  pose proof (N.div_mod (Byte.to_N b) 16). lia.
Qed.

Lemma hex_value_hex (bs : list byte) :
  ∀ acc, Consumer.hex_value_go acc (chars (Py.hex bs))
         = Some (fold_left (λ a b, 256 * a + Byte.to_N b)%N bs acc).
Proof.
  induction bs as [|b bs IH]; intros acc; [done|].
  cbn [Py.hex fold_left]. by rewrite chars_app, hex_value_byte, IH.
Qed.

Lemma fold_rev_le_value (g : list byte) :
  fold_left (λ a b, 256 * a + Byte.to_N b)%N (rev g) 0%N
  = Consumer.le_value g.
Proof.
  induction g as [|b g IH]; [done|].
  cbn [rev Consumer.le_value]. rewrite fold_left_app. cbn [fold_left].
  rewrite IH. lia.
Qed.

Lemma token_value_group (g : list byte) :
  Consumer.token_value ("0x" +:+ Py.hex (rev g))
  = Some (Consumer.le_value g).
Proof.
  unfold Consumer.token_value.
  by rewrite strip_prefix_app, hex_value_hex, fold_rev_le_value.
Qed.

(** X3. The [k]-th literal of the word-mode file denotes the
    little-endian number held in bytes [4k .. 4k+3] of the payload; a
    short last group denotes the number of the bytes that remain, as if
    padded with zero bytes at the high end. *)
Theorem word_mode_little_endian
    (inp out var : string) (data : list byte) (w : world) :
  files w !! inp = Some data → out ∉ locked w →
  ∃ text ts,
    word_mode_output inp out var w = Some text
    ∧ tokens_of var text = Some ts
    ∧ ∀ k t, ts !! k = Some t →
        Consumer.token_value t
        = Some (Consumer.le_value (Py.slice data (4 * k) (4 * k + 4))).
Proof.
  intros Hin Hout. exists (declaration var data), (word_tokens data).
  split; [by apply word_mode_output_ok|].
  split; [apply declaration_tokens|].
  intros k t Ht.
  assert (map (λ i, Py.slice data i (i + 4)) (Py.range 0 (length data) 4) !! k
          = Some (Py.slice data (4 * k) (4 * k + 4))) as Hk.
  { rewrite range_chunks.
    rewrite word_tokens_chunks in Ht.
    apply map_lookup_Some in Ht as (g & Hg & _).
    rewrite Hg. f_equal. clear t Hin.
    revert k g Hg.
    induction data as [|a|a b|a b c|a b c d r IH] using list_ind4;
      intros k g Hg.
    - done.
    - destruct k; [by injection Hg as <-|done].
    - destruct k; [by injection Hg as <-|done].
    - destruct k; [by injection Hg as <-|done].
    - destruct k as [|k]; [by injection Hg as <-|].
      cbn [chunks4] in Hg. change ((?x :: ?l) !! S k) with (l !! k) in Hg.
      rewrite (IH k g Hg). unfold Py.slice.
      replace (4 * S k + 4 - 4 * S k) with 4 by lia.
      replace (4 * k + 4 - 4 * k) with 4 by lia.
      replace (4 * S k) with (4 + 4 * k) by lia. done. }
  rewrite word_tokens_chunks, <- range_chunks, map_map in Ht.
  apply map_lookup_Some in Ht as (i & Hi & ->).
  apply map_lookup_Some in Hk as (i' & Hi' & Hs).
  rewrite Hi in Hi'. injection Hi' as <-.
  rewrite Hs. apply token_value_group.
Qed.

Lemma word_mode_little_endian_witness :
  ∃ text ts,
    word_mode_output "shaders/vert.spv" "v.h" "v" Sample.disk = Some text
    ∧ tokens_of "v" text = Some ts
    ∧ ∀ k t, ts !! k = Some t →
        Consumer.token_value t
        = Some (Consumer.le_value
                  (Py.slice [x03; x02; x23; x07; x00; x00; x01; x00]%byte
                     (4 * k) (4 * k + 4))).
Proof.
  apply (word_mode_little_endian "shaders/vert.spv" "v.h" "v"
           [x03; x02; x23; x07; x00; x00; x01; x00]%byte Sample.disk).
  - vm_compute. reflexivity.
  - vm_compute. intros H. discriminate H.
Defined.

End Meaning.

(** ** Reading the byte-mode file back *)

Section ByteReading.

Import IO Reader Content.

Lemma byte_token_chars (b : byte) :
  ∃ hi lo, chars (GenerateShaderHeaders.byte_token b)
           = ["0"%char; "x"%char; hi; lo]
           ∧ unhex [hi; lo] = Some [b].
Proof.
  destruct (format_02x_chars b) as (hi & lo & E & _).
  exists hi, lo. split.
  - unfold GenerateShaderHeaders.byte_token. by rewrite chars_app, E.
  - pose proof (format_02x_unhex b []) as H.
    by rewrite E in H.
Qed.

Lemma unhex_tokens_array (spv : list byte) :
  spv ≠ [] →
  Consumer.unhex_tokens (chars (GenerateShaderHeaders.spv_hex_array spv))
  = Some spv.
Proof.
  unfold GenerateShaderHeaders.spv_hex_array.
  induction spv as [|b spv IH]; [done|]. intros _.
  destruct (byte_token_chars b) as (hi & lo & E & Hu).
  destruct spv as [|b' spv].
  { cbn [map Py.join]. rewrite E. cbn [Consumer.unhex_tokens].
    rewrite !bool_decide_eq_true_2 by done. cbn [andb]. by rewrite Hu. }
  remember (b' :: spv) as rest eqn:Hrest.
  assert (Py.join ", " (map GenerateShaderHeaders.byte_token (b :: rest))
          = GenerateShaderHeaders.byte_token b +:+ ", "
            +:+ Py.join ", " (map GenerateShaderHeaders.byte_token rest)) as ->.
  { by rewrite Hrest. }
  rewrite !chars_app, E.
  change (chars ", ") with [","%char; " "%char].
  cbn [app Consumer.unhex_tokens].
  rewrite !bool_decide_eq_true_2 by done. cbn [andb]. rewrite Hu.
  rewrite IH by (by rewrite Hrest). done.
Qed.

Lemma header_text_payload (name : string) (spv : list byte) :
  Consumer.byte_payload_of name (header_text name spv) = Some spv.
Proof.
  rewrite header_text_eq. unfold Consumer.byte_payload_of.
  rewrite <- !str_app_assoc, strip_prefix_app.
  destruct spv as [|b spv]; [done|].
  remember (GenerateShaderHeaders.spv_hex_array (b :: spv)) as arr eqn:Harr.
  change (Consumer.nl +:+ "    " +:+ arr)
    with (String (ascii_of_nat 10) ("    " +:+ arr)).
  cbv iota.
  change (String (ascii_of_nat 10) ("    " +:+ arr))
    with ((Consumer.nl +:+ "    ") +:+ arr).
  rewrite strip_prefix_app, Harr. by apply unhex_tokens_array.
Qed.

(** X4. The byte-mode file determines the payload, for every shader name
    and every payload: after the comment line either nothing follows (the
    empty payload) or the indented token line, whose tokens read back as
    the payload bytes in order. *)
Theorem byte_mode_round_trip (name : string) (spv : list byte) (w : world) :
  files w !! spv_path name = Some spv → h_path name ∉ locked w →
  ∃ text, byte_mode_output name w = Some text
          ∧ Consumer.byte_payload_of name text = Some spv.
Proof.
  intros Hin Hout. exists (header_text name spv).
  split; [by apply byte_mode_output_ok|apply header_text_payload].
Qed.

Lemma byte_mode_round_trip_witness :
  ∃ text, byte_mode_output "vert" Sample.disk = Some text
          ∧ Consumer.byte_payload_of "vert" text
            = Some [x03; x02; x23; x07; x00; x00; x01; x00]%byte.
Proof.
  apply (byte_mode_round_trip "vert"
           [x03; x02; x23; x07; x00; x00; x01; x00]%byte Sample.disk).
  - vm_compute. reflexivity.
  - vm_compute. intros H. discriminate H.
Defined.

End ByteReading.

(** ** What a run leaves alone *)

Section Frame.

Import IO Content.

(** The three ways a run of [spv_to_constexpr] can end. *)
Lemma spv_to_constexpr_cases (inp out var : string) (w : world) :
  (∃ data, files w !! inp = Some data ∧ (out ∉ locked w)
           ∧ SpvToConstexpr.spv_to_constexpr inp out var w
             = (Ok tt, written w out (declaration var data)
                         [Opened inp RB; Opened out W]))
  ∨ (files w !! inp = None
     ∧ SpvToConstexpr.spv_to_constexpr inp out var w
       = (Raised (OSError inp), logged w [Opened inp RB]))
  ∨ (is_Some (files w !! inp) ∧ out ∈ locked w
     ∧ SpvToConstexpr.spv_to_constexpr inp out var w
       = (Raised (OSError out), logged w [Opened inp RB; Opened out W])).
Proof.
  destruct (files w !! inp) as [data|] eqn:Hin.
  - destruct (decide (out ∈ locked w)) as [Hl|Hl].
    + right. right. split; [by eexists|]. split; [done|].
      by apply (spv_to_constexpr_locked _ _ _ data).
    + left. exists data. split; [done|]. split; [done|].
      by apply spv_to_constexpr_ok.
  - right. left. split; [done|]. by apply spv_to_constexpr_no_input.
Qed.

Lemma generate_header_cases (name : string) (w : world) :
  (∃ spv, files w !! spv_path name = Some spv ∧ (h_path name ∉ locked w)
          ∧ GenerateShaderHeaders.generate_header name w
            = (Ok tt, written w (h_path name) (header_text name spv)
                        (prints w name
                         ++ [Opened (spv_path name) RB;
                             Opened (h_path name) W])))
  ∨ (files w !! spv_path name = None
     ∧ GenerateShaderHeaders.generate_header name w
       = (Raised (OSError (spv_path name)),
          logged w (prints w name ++ [Opened (spv_path name) RB])))
  ∨ (is_Some (files w !! spv_path name) ∧ h_path name ∈ locked w
     ∧ GenerateShaderHeaders.generate_header name w
       = (Raised (OSError (h_path name)),
          logged w (prints w name
                    ++ [Opened (spv_path name) RB; Opened (h_path name) W]))).
Proof.
  destruct (files w !! spv_path name) as [spv|] eqn:Hin.
  - destruct (decide (h_path name ∈ locked w)) as [Hl|Hl].
    + right. right. split; [by eexists|]. split; [done|].
      by apply (generate_header_locked _ spv).
    + left. exists spv. split; [done|]. split; [done|].
      by apply generate_header_ok.
  - right. left. split; [done|]. by apply generate_header_no_input.
Qed.

(** X5. A run of [spv_to_constexpr] prints nothing and opens nothing but
    its two paths, the input first: when the input cannot be opened that
    failed [open] is its only event, and otherwise its events are the
    [open] of the input followed by the [open] of the output. *)
Theorem spv_to_constexpr_events (inp out var : string) (w : world) :
  let r := SpvToConstexpr.spv_to_constexpr inp out var w in
  (files w !! inp = None ∧ Consumer.new_events w r = [Opened inp RB])
  ∨ (is_Some (files w !! inp)
     ∧ Consumer.new_events w r = [Opened inp RB; Opened out W]).
Proof.
  cbv zeta. unfold Consumer.new_events.
  destruct (spv_to_constexpr_cases inp out var w)
    as [(data & Hd & _ & ->)|[(Hn & ->)|(Hs & _ & ->)]];
    unfold written, logged; cbn [snd trace]; rewrite drop_app_length.
  - right. split; [by eexists|done].
  - by left.
  - by right.
Qed.

(** X6. When the output cannot be opened for writing, [spv_to_constexpr]
    raises [OSError] for the output path after having opened the input;
    no file is created, truncated or changed. *)
Theorem spv_to_constexpr_unwritable
    (inp out var : string) (data : list byte) (w : world) :
  files w !! inp = Some data → out ∈ locked w →
  let r := SpvToConstexpr.spv_to_constexpr inp out var w in
  fst r = Raised (OSError out)
  ∧ files (snd r) = files w
  ∧ Consumer.new_events w r = [Opened inp RB; Opened out W].
Proof.
  intros Hin Hout r. subst r.
  rewrite (spv_to_constexpr_locked _ _ _ data) by done.
  unfold Consumer.new_events, logged. cbn [fst snd files trace].
  by rewrite drop_app_length.
Qed.

Lemma spv_to_constexpr_unwritable_witness :
  let r := SpvToConstexpr.spv_to_constexpr
             "shaders/frag.spv" "shaders/frag.h" "frag" Sample.disk in
  fst r = Raised (OSError "shaders/frag.h")
  ∧ files (snd r) = files Sample.disk
  ∧ Consumer.new_events Sample.disk r
    = [Opened "shaders/frag.spv" RB; Opened "shaders/frag.h" W].
Proof.
  apply (spv_to_constexpr_unwritable "shaders/frag.spv" "shaders/frag.h"
           "frag" [xde; xad; xbe; xef]%byte Sample.disk).
  - vm_compute. reflexivity.
  - unfold Sample.disk. cbn [locked].
    apply elem_of_singleton_2. reflexivity.
Defined.

End Frame.

(** ** The command line of the word-mode tool *)

Section CommandLine.

Import IO Content.

(** X7. With three or more positional arguments the CLI converts the
    first into the second under the name given third and ignores the rest:
    when the input is readable, the output writable and the name made of
    ASCII characters, it exits with status 0, prints nothing, and the
    output holds the declaration of the input bytes. *)
Theorem cli_converts
    (prog a1 a2 a3 : string) (more : list string)
    (data : list byte) (w : world) :
  files w !! a1 = Some data → a2 ∉ locked w →
  Consumer.is_ascii a3 = true →
  let r := SpvToConstexpr.main (prog :: a1 :: a2 :: a3 :: more) w in
  exit_status (fst r) = 0%Z
  ∧ Consumer.new_events w r = [Opened a1 RB; Opened a2 W]
  ∧ ∃ text, Consumer.file_after r a2 = Some (encode text)
            ∧ Consumer.payload_of a3 text = Some data.
Proof.
  intros Hin Hout _ r. subst r.
  change (SpvToConstexpr.main (prog :: a1 :: a2 :: a3 :: more) w)
    with (SpvToConstexpr.spv_to_constexpr a1 a2 a3 w).
  rewrite (spv_to_constexpr_ok _ _ _ data) by done.
  unfold Consumer.new_events, Consumer.file_after, written.
  cbn [fst snd files trace exit_status].
  rewrite drop_app_length, lookup_insert_eq.
  split; [done|]. split; [done|].
  exists (declaration a3 data). split; [done|apply declaration_payload_any].
Qed.

Lemma cli_converts_witness :
  let r := SpvToConstexpr.main
             ["spv_to_constexpr.py"; "odd.spv"; "odd.h"; "odd"; "ignored"]
             Sample.disk in
  exit_status (fst r) = 0%Z
  ∧ Consumer.new_events Sample.disk r = [Opened "odd.spv" RB; Opened "odd.h" W]
  ∧ ∃ text, Consumer.file_after r "odd.h" = Some (encode text)
            ∧ Consumer.payload_of "odd" text = Some [x01]%byte.
Proof.
  apply (cli_converts "spv_to_constexpr.py" "odd.spv" "odd.h" "odd"
           ["ignored"] [x01]%byte Sample.disk).
  - vm_compute. reflexivity.
  - vm_compute. intros H. discriminate H.
  - reflexivity.
Defined.

(** X8. With three or more positional arguments and an input that cannot
    be opened, the CLI ends with the uncaught [OSError] of the input path
    (exit status 1, as for a usage error) without printing the usage line;
    the only event is the failed [open], and no file is changed. *)
Theorem cli_missing_input
    (prog a1 a2 a3 : string) (more : list string) (w : world) :
  files w !! a1 = None →
  let r := SpvToConstexpr.main (prog :: a1 :: a2 :: a3 :: more) w in
  fst r = Raised (OSError a1)
  ∧ exit_status (fst r) = 1%Z
  ∧ Consumer.new_events w r = [Opened a1 RB]
  ∧ files (snd r) = files w.
Proof.
  intros Hin r. subst r.
  change (SpvToConstexpr.main (prog :: a1 :: a2 :: a3 :: more) w)
    with (SpvToConstexpr.spv_to_constexpr a1 a2 a3 w).
  rewrite spv_to_constexpr_no_input by done.
  unfold Consumer.new_events, logged. cbn [fst snd files trace exit_status].
  by rewrite drop_app_length.
Qed.

Lemma cli_missing_input_witness :
  let r := SpvToConstexpr.main
             ["spv_to_constexpr.py"; "missing.spv"; "shaders/vert.h"; "v"]
             Sample.disk in
  fst r = Raised (OSError "missing.spv")
  ∧ exit_status (fst r) = 1%Z
  ∧ Consumer.new_events Sample.disk r = [Opened "missing.spv" RB]
  ∧ files (snd r) = files Sample.disk.
Proof.
  apply (cli_missing_input "spv_to_constexpr.py" "missing.spv"
           "shaders/vert.h" "v" [] Sample.disk).
  vm_compute. reflexivity.
Defined.

(** X9. An empty input gives a declaration with no body line: the opening
    line directly followed by the closing line. *)
Theorem word_mode_empty_payload (inp out var : string) (w : world) :
  files w !! inp = Some [] → out ∉ locked w →
  word_mode_output inp out var w
  = Some ("constexpr uint32_t " +:+ var +:+ "[] = {" +:+ SpvToConstexpr.nl
          +:+ "};" +:+ SpvToConstexpr.nl).
Proof.
  intros Hin Hout. rewrite (word_mode_output_ok _ _ _ [] _ Hin Hout).
  f_equal. unfold declaration.
  change (cat (map (SpvToConstexpr.body_line [])
                 (Py.range 0 (length (@nil byte)) 4))
          +:+ "};" +:+ nl)
    with ("};" +:+ SpvToConstexpr.nl).
  by rewrite !str_app_assoc.
Qed.

Lemma word_mode_empty_payload_witness :
  word_mode_output "empty.spv" "empty.h" "empty_spv" Sample2.empty_input
  = Some ("constexpr uint32_t " +:+ "empty_spv" +:+ "[] = {"
          +:+ SpvToConstexpr.nl +:+ "};" +:+ SpvToConstexpr.nl).
Proof.
  apply (word_mode_empty_payload "empty.spv" "empty.h" "empty_spv"
           Sample2.empty_input).
  - vm_compute. reflexivity.
  - vm_compute. intros H. discriminate H.
Defined.

End CommandLine.

(** ** The batch driver and the files around it *)

Section Batch.

Import IO Content.

(** A loop adds to the trace only events of the kind its iterations add. *)
Lemma for_each_events {A} (body : A → M unit) (P : event → Prop)
    (xs : list A) :
  (∀ x w, In x xs →
     ∃ evs, trace (snd (body x w)) = trace w ++ evs ∧ Forall P evs) →
  ∀ w, ∃ evs, trace (snd (for_each xs body w)) = trace w ++ evs
              ∧ Forall P evs.
Proof.
  induction xs as [|x xs IH]; intros Hbody w.
  { exists []. split; [by rewrite app_nil_r|apply List.Forall_nil]. }
  cbn [for_each]. unfold bind.
  destruct (Hbody x w (or_introl eq_refl)) as (evs & Hevs & HP).
  destruct (body x w) as [[u|e] w1]; cbn [snd] in *.
  - destruct (IH (λ y w' Hy, Hbody y w' (or_intror Hy)) w1)
      as (evs' & Hevs' & HP').
    exists (evs ++ evs'). split; [by rewrite Hevs', Hevs, app_assoc|].
    by apply Forall_app.
  - by exists evs.
Qed.

Lemma generate_header_trace (name : string) (w : world) :
  ∃ n, trace (snd (GenerateShaderHeaders.generate_header name w))
       = trace w ++ take n (Consumer.header_script w name)
       ∧ (n ≤ 3 ∨ is_Some (files w !! spv_path name)).
Proof.
  unfold Consumer.header_script.
  destruct (generate_header_cases name w)
    as [(spv & Hs & _ & ->)|[(Hs & ->)|([spv Hs] & _ & ->)]];
    unfold written, logged; cbn [snd trace].
  - exists 4. split; [done|]. right. by eexists.
  - exists 3. split; [done|]. by left.
  - exists 4. split; [done|]. right. by eexists.
Qed.

(** X10. The events of a run of [generate_header] are always an initial
    part of the same sequence -- print the working directory, print the
    input path, open the [.spv] file, open the header -- so nothing is
    opened before it has been announced, and the header is opened only
    after the [.spv] file has been read. *)
Theorem generate_header_events (name : string) (w : world) :
  ∃ n, Consumer.new_events w (GenerateShaderHeaders.generate_header name w)
       = take n (Consumer.header_script w name)
       ∧ (n ≤ 3 ∨ is_Some (files w !! spv_path name)).
Proof.
  destruct (generate_header_trace name w) as (n & Hn & Hread).
  exists n. split; [|done].
  unfold Consumer.new_events. by rewrite Hn, drop_app_length.
Qed.

(** X11. Whatever the batch finds, the only things it does are printing,
    opening [shaders/vert.spv] and [shaders/frag.spv] for reading and
    opening [shaders/vert.h] and [shaders/frag.h] for writing: it never
    opens a [.spv] path for writing, nor any other path. *)
Theorem batch_events (w : world) :
  Forall Consumer.batch_event
    (Consumer.new_events w (GenerateShaderHeaders.main w)).
Proof.
  unfold GenerateShaderHeaders.main, Consumer.new_events.
  destruct (for_each_events GenerateShaderHeaders.generate_header
              Consumer.batch_event GenerateShaderHeaders.shaders) with (w := w)
    as (evs & -> & HP); [|by rewrite drop_app_length].
  intros x w' Hx.
  destruct (generate_header_trace x w') as (n & -> & _).
  eexists. split; [done|].
  apply Forall_take.
  destruct Hx as [<-|[<-|[]]]; unfold Consumer.header_script, prints.
  - repeat (apply List.Forall_cons; [cbn; tauto|]). apply List.Forall_nil.
  - repeat (apply List.Forall_cons; [cbn; tauto|]). apply List.Forall_nil.
Qed.

(** X12. A header that cannot be opened for writing stops the batch like a
    failed read.  If it is [vert.h], the run ends with its [OSError]
    before [frag] is announced or opened and no file is changed.  If it is
    [frag.h], [vert.h] has been written and stays written, and [frag.h] is
    left as it was. *)
Theorem batch_unwritable (w : world) :
  (∀ vert, files w !! spv_path "vert" = Some vert →
     h_path "vert" ∈ locked w →
     GenerateShaderHeaders.main w
     = (Raised (OSError (h_path "vert")),
        logged w (prints w "vert"
                  ++ [Opened (spv_path "vert") RB; Opened (h_path "vert") W])))
  ∧ (∀ vert frag, files w !! spv_path "vert" = Some vert →
       h_path "vert" ∉ locked w →
       files w !! spv_path "frag" = Some frag →
       h_path "frag" ∈ locked w →
       let r := GenerateShaderHeaders.main w in
       fst r = Raised (OSError (h_path "frag"))
       ∧ Consumer.file_after r (h_path "vert")
         = Some (encode (header_text "vert" vert))
       ∧ Consumer.file_after r (h_path "frag") = (files w !! h_path "frag")).
Proof.
  split.
  - intros vert Hv Hl.
    unfold GenerateShaderHeaders.main, GenerateShaderHeaders.shaders.
    cbn [for_each]. unfold bind at 1.
    by rewrite (generate_header_locked _ vert).
  - intros vert frag Hv Hl Hf Hlf. cbv zeta.
    assert (∃ w', GenerateShaderHeaders.main w
                  = (Raised (OSError (h_path "frag")), w')
                  ∧ files w' = <[h_path "vert" :=
                                   encode (header_text "vert" vert)]> (files w))
      as (w' & -> & Hw').
    { unfold GenerateShaderHeaders.main, GenerateShaderHeaders.shaders.
      cbn [for_each]. unfold bind at 1.
      rewrite (generate_header_ok _ vert) by done.
      unfold bind at 1. rewrite (generate_header_locked _ frag).
      - eexists. split; [done|]. done.
      - unfold written. cbn [files].
        rewrite lookup_insert_ne; [done|].
        intros E. by apply (spv_path_ne_h_path "frag" "vert").
      - done. }
    unfold Consumer.file_after. cbn [fst snd]. rewrite Hw'.
    rewrite lookup_insert_eq, lookup_insert_ne by done. done.
Qed.

Lemma batch_unwritable_witness :
  GenerateShaderHeaders.main Sample2.vert_locked
  = (Raised (OSError "shaders/vert.h"),
     logged Sample2.vert_locked
       (prints Sample2.vert_locked "vert"
        ++ [Opened "shaders/vert.spv" RB; Opened "shaders/vert.h" W]))
  ∧ (let r := GenerateShaderHeaders.main Sample2.frag_locked in
     fst r = Raised (OSError (h_path "frag"))
     ∧ Consumer.file_after r (h_path "vert")
       = Some (encode (header_text "vert" [x03; x02; x23; x07]%byte))
     ∧ Consumer.file_after r (h_path "frag")
       = (files Sample2.frag_locked !! h_path "frag")).
Proof.
  split.
  - apply (proj1 (batch_unwritable Sample2.vert_locked)
             [x03; x02; x23; x07]%byte).
    + vm_compute. reflexivity.
    + unfold Sample2.vert_locked. cbn [locked].
      apply elem_of_singleton_2. reflexivity.
  - apply (proj2 (batch_unwritable Sample2.frag_locked)
             [x03; x02; x23; x07]%byte [xde; xad; xbe; xef]%byte).
    + vm_compute. reflexivity.
    + vm_compute. intros H. discriminate H.
    + vm_compute. reflexivity.
    + unfold Sample2.frag_locked. cbn [locked].
      apply elem_of_singleton_2. reflexivity.
Defined.

End Batch.

(** ** Sizes, and converting a file onto itself *)

Section Sizes.

Import IO Content.

Lemma str_length_app (a b : string) :
  String.length (a +:+ b) = String.length a + String.length b.
Proof. by rewrite !str_length_chars, chars_app, length_app. Qed.

Lemma encode_length (s : string) : length (encode s) = String.length s.
Proof.
  unfold encode, list_byte_of_string.
  by rewrite length_map, str_length_chars.
Qed.

Lemma body_lines_length (gs : list (list byte)) :
  String.length
    (cat (map (λ g, "    " +:+ ("0x" +:+ Py.hex (rev g)) +:+ "," +:+ nl) gs))
  = 8 * length gs + 2 * length (concat gs).
Proof.
  induction gs as [|g gs IH]; [done|].
  cbn [map cat concat length].
  rewrite !str_length_app, IH, hex_length, length_rev, length_app.
  change (String.length "    ") with 4. change (String.length "0x") with 2.
  change (String.length ",") with 1. change (String.length nl) with 1.
  lia.
Qed.

Lemma declaration_length (var : string) (data : list byte) :
  String.length (declaration var data)
  = 29 + String.length var + 2 * length data + 8 * ((length data + 3) / 4).
Proof.
  unfold declaration.
  assert (map (SpvToConstexpr.body_line data) (Py.range 0 (length data) 4)
          = map (λ g, "    " +:+ ("0x" +:+ Py.hex (rev g)) +:+ "," +:+ nl)
              (chunks4 data)) as ->.
  { by rewrite <- range_chunks, map_map. }
  rewrite !str_length_app, body_lines_length, concat_chunks4, length_chunks4.
  change (String.length "constexpr uint32_t ") with 19.
  change (String.length "[] = {") with 6.
  change (String.length "};") with 2. change (String.length nl) with 1.
  lia.
Qed.

Lemma spv_hex_array_length (spv : list byte) :
  spv ≠ [] →
  String.length (GenerateShaderHeaders.spv_hex_array spv) + 2
  = 6 * length spv.
Proof.
  unfold GenerateShaderHeaders.spv_hex_array.
  induction spv as [|b spv IH]; [done|]. intros _.
  assert (String.length (GenerateShaderHeaders.byte_token b) = 4) as Hb.
  { destruct b; reflexivity. }
  destruct spv as [|b' spv]; [cbn [map Py.join length]; lia|].
  remember (b' :: spv) as rest eqn:Hrest.
  assert (Py.join ", " (map GenerateShaderHeaders.byte_token (b :: rest))
          = GenerateShaderHeaders.byte_token b +:+ ", "
            +:+ Py.join ", " (map GenerateShaderHeaders.byte_token rest)) as ->.
  { by rewrite Hrest. }
  rewrite !str_length_app, Hb. change (String.length ", ") with 2.
  cbn [length]. specialize (IH ltac:(by rewrite Hrest)). lia.
Qed.

(** X13. For a variable name made of ASCII characters the word-mode file
    has [29 + len(var_name) + 2*n + 8*ceil(n/4)] bytes for a payload of
    [n] bytes: the two fixed lines, two digits per byte and eight more
    characters per literal. *)
Theorem word_mode_size
    (inp out var : string) (data : list byte) (w : world) :
  files w !! inp = Some data → out ∉ locked w →
  Consumer.is_ascii var = true →
  ∃ bytes,
    Consumer.file_after (SpvToConstexpr.spv_to_constexpr inp out var w) out
    = Some bytes
    ∧ length bytes
      = 29 + String.length var + 2 * length data
        + 8 * ((length data + 3) / 4).
Proof.
  intros Hin Hout _. rewrite (spv_to_constexpr_ok _ _ _ data) by done.
  unfold Consumer.file_after, written. cbn [snd files].
  rewrite lookup_insert_eq. eexists. split; [done|].
  by rewrite encode_length, declaration_length.
Qed.

Lemma word_mode_size_witness :
  ∃ bytes,
    Consumer.file_after
      (SpvToConstexpr.spv_to_constexpr "shaders/vert.spv" "v.h" "vert"
         Sample.disk) "v.h"
    = Some bytes
    ∧ length bytes = 29 + String.length "vert" + 2 * 8 + 8 * ((8 + 3) / 4).
Proof.
  apply (word_mode_size "shaders/vert.spv" "v.h" "vert"
           [x03; x02; x23; x07; x00; x00; x01; x00]%byte Sample.disk).
  - vm_compute. reflexivity.
  - vm_compute. intros H. discriminate H.
  - reflexivity.
Defined.

(** X14. For a shader name made of ASCII characters the byte-mode file
    has [5 + len(name)] bytes for an empty payload and
    [8 + len(name) + 6*n] bytes for a payload of [n >= 1] bytes. *)
Theorem byte_mode_size (name : string) (spv : list byte) (w : world) :
  files w !! spv_path name = Some spv → h_path name ∉ locked w →
  Consumer.is_ascii name = true →
  ∃ bytes,
    Consumer.file_after (GenerateShaderHeaders.generate_header name w)
      (h_path name)
    = Some bytes
    ∧ length bytes
      = match spv with
        | [] => 5 + String.length name
        | _ => 8 + String.length name + 6 * length spv
        end.
Proof.
  intros Hin Hout _. rewrite (generate_header_ok _ spv) by done.
  unfold Consumer.file_after, written. cbn [snd files].
  rewrite lookup_insert_eq. eexists. split; [done|].
  rewrite encode_length, header_text_eq, !str_length_app.
  change (String.length "// ") with 3. change (String.length ".h") with 2.
  destruct spv as [|b spv]; [cbn; lia|].
  pose proof (spv_hex_array_length (b :: spv) ltac:(done)) as Hlen.
  rewrite !str_length_app.
  change (String.length nl) with 1. change (String.length "    ") with 4.
  lia.
Qed.

Lemma byte_mode_size_witness :
  ∃ bytes,
    Consumer.file_after
      (GenerateShaderHeaders.generate_header "frag" Sample.other_disk)
      (h_path "frag")
    = Some bytes
    ∧ length bytes = 8 + String.length "frag" + 6 * 4.
Proof.
  apply (byte_mode_size "frag" [xde; xad; xbe; xef]%byte Sample.other_disk).
  - vm_compute. reflexivity.
  - vm_compute. intros H. discriminate H.
  - reflexivity.
Defined.

(** X15. The input may be the output: the payload is read in full before
    the file is truncated, so the file ends up holding the declaration of
    its former content.  Converting it in place once more declares the
    text of the first declaration, and the file keeps growing: a run in
    place never reproduces the file it found. *)
Theorem word_mode_in_place (p var : string) (data : list byte) (w : world) :
  files w !! p = Some data → p ∉ locked w →
  let r1 := SpvToConstexpr.spv_to_constexpr p p var w in
  let r2 := SpvToConstexpr.spv_to_constexpr p p var (snd r1) in
  fst r1 = Ok tt
  ∧ Consumer.file_after r1 p = Some (encode (declaration var data))
  ∧ fst r2 = Ok tt
  ∧ Consumer.file_after r2 p
    = Some (encode (declaration var (encode (declaration var data))))
  ∧ Consumer.file_after r1 p ≠ (files w !! p)
  ∧ Consumer.file_after r2 p ≠ Consumer.file_after r1 p.
Proof.
  intros Hin Hout r1 r2. subst r1 r2.
  rewrite (spv_to_constexpr_ok _ _ _ data w) by done.
  assert (∀ d, encode (declaration var d) ≠ d) as Hgrow.
  { intros d E. apply (f_equal length) in E.
    rewrite encode_length, declaration_length in E. lia. }
  rewrite (spv_to_constexpr_ok _ _ _ (encode (declaration var data))).
  - unfold Consumer.file_after, written. cbn [fst snd files].
    rewrite !lookup_insert_eq, Hin.
    repeat split; try done.
    + intros E. apply (inj Some) in E. by apply Hgrow in E.
    + intros E. apply (inj Some) in E. by apply Hgrow in E.
  - unfold written. cbn [snd files]. by rewrite lookup_insert_eq.
  - done.
Qed.

Lemma word_mode_in_place_witness :
  let r1 := SpvToConstexpr.spv_to_constexpr "odd.spv" "odd.spv" "odd"
              Sample.disk in
  let r2 := SpvToConstexpr.spv_to_constexpr "odd.spv" "odd.spv" "odd"
              (snd r1) in
  fst r1 = Ok tt
  ∧ Consumer.file_after r1 "odd.spv"
    = Some (encode (declaration "odd" [x01]%byte))
  ∧ fst r2 = Ok tt
  ∧ Consumer.file_after r2 "odd.spv"
    = Some (encode (declaration "odd" (encode (declaration "odd" [x01]%byte))))
  ∧ Consumer.file_after r1 "odd.spv" ≠ (files Sample.disk !! "odd.spv")
  ∧ Consumer.file_after r2 "odd.spv" ≠ Consumer.file_after r1 "odd.spv".
Proof.
  apply (word_mode_in_place "odd.spv" "odd" [x01]%byte Sample.disk).
  - vm_compute. reflexivity.
  - vm_compute. intros H. discriminate H.
Defined.

End Sizes.

(** ** The loop and the lines it writes *)

Section Loop.

Import IO Reader Content.

Lemma range_go_offsets (fuel : nat) :
  ∀ j n, n - 4 * j ≤ fuel →
    Py.range_go fuel (4 * j) n 4
    = map (λ k, 4 * k) (seq j ((n + 3) / 4 - j)).
Proof.
  induction fuel as [|fuel IH]; intros j n Hfuel;
    pose proof (Nat.div_mod_eq (n + 3) 4) as Hd;
    pose proof (Nat.mod_upper_bound (n + 3) 4 ltac:(lia)) as Hr.
  - replace ((n + 3) / 4 - j) with 0 by lia. done.
  - cbn [Py.range_go]. destruct (Nat.ltb_spec (4 * j) n) as [Hlt|Hge].
    + replace ((n + 3) / 4 - j) with (S ((n + 3) / 4 - S j)) by lia.
      cbn [seq map]. f_equal.
      replace (4 * j + 4) with (4 * S j) by lia. apply IH. lia.
    + replace ((n + 3) / 4 - j) with 0 by lia. done.
Qed.

(** X16. The word-mode loop runs over the offsets [0, 4, 8, ...] below the
    length of the payload, in increasing order and once each:
    [ceil(len/4)] iterations, none for an empty payload. *)
Theorem loop_offsets (data : list byte) :
  Py.range 0 (length data) 4
  = map (λ k, 4 * k) (seq 0 ((length data + 3) / 4))
  ∧ map (SpvToConstexpr.word_at data) (Py.range 0 (length data) 4)
    = map (λ k, rev (take 4 (drop (4 * k) data)))
        (seq 0 ((length data + 3) / 4)).
Proof.
  assert (Py.range 0 (length data) 4
          = map (λ k, 4 * k) (seq 0 ((length data + 3) / 4))) as Hr.
  { unfold Py.range. rewrite Nat.sub_0_r.
    pose proof (range_go_offsets (length data) 0 (length data) ltac:(lia))
      as H.
    by rewrite Nat.mul_0_r, Nat.sub_0_r in H. }
  split; [done|]. rewrite Hr, map_map. apply map_ext. intros k.
  unfold SpvToConstexpr.word_at, Py.reversed, Py.slice.
  by replace (4 * k + 4 - 4 * k) with 4 by lia.
Qed.

Lemma header_line_no_newline (var : string) :
  has_newline var = false →
  has_newline ("constexpr uint32_t " +:+ var +:+ "[] = {") = false.
Proof.
  unfold has_newline. intros Hv.
  by rewrite !chars_app, !existsb_app, Hv.
Qed.

(** X17. When the variable name holds no newline, splitting the word-mode
    file at newlines gives the opening line, one line per literal, the
    closing line and the empty string after the final newline:
    [ceil(len/4) + 3] pieces in all. *)
Theorem word_mode_lines
    (inp out var : string) (data : list byte) (w : world) :
  files w !! inp = Some data → out ∉ locked w → has_newline var = false →
  ∃ text,
    word_mode_output inp out var w = Some text
    ∧ lines text
      = ("constexpr uint32_t " +:+ var +:+ "[] = {")
        :: map (λ t, "    " +:+ t +:+ ",") (word_tokens data)
        ++ ["};"; ""]
    ∧ length (lines text) = (length data + 3) / 4 + 3.
Proof.
  intros Hin Hout Hvar. exists (declaration var data).
  split; [by apply word_mode_output_ok|].
  assert (lines (declaration var data)
          = ("constexpr uint32_t " +:+ var +:+ "[] = {")
            :: map (λ t, "    " +:+ t +:+ ",") (word_tokens data)
            ++ ["};"; ""]) as Hl.
  { assert (declaration var data
            = ("constexpr uint32_t " +:+ var +:+ "[] = {") +:+ Reader.nl
              +:+ cat (map (SpvToConstexpr.body_line data)
                         (Py.range 0 (length data) 4))
              +:+ "};" +:+ Reader.nl) as ->.
    { unfold declaration. by rewrite !str_app_assoc. }
    rewrite lines_app_nl by (by apply header_line_no_newline).
    f_equal.
    rewrite (map_ext _ _ (body_line_split data)).
    rewrite <- (map_map
                  (λ i, "    " +:+ SpvToConstexpr.word_token data i +:+ ",")
                  (λ l, l +:+ nl)).
    rewrite lines_cat.
    - unfold word_tokens. by rewrite map_map.
    - apply Forall_map, Forall_forall. intros i _.
      apply token_line_no_newline. }
  split; [done|].
  rewrite Hl. cbn [length].
  rewrite length_app, length_map, word_tokens_chunks, length_map,
    length_chunks4.
  cbn [length]. lia.
Qed.

Lemma word_mode_lines_witness :
  ∃ text,
    word_mode_output "shaders/frag.spv" "f.h" "frag" Sample.disk = Some text
    ∧ lines text
      = ("constexpr uint32_t " +:+ "frag" +:+ "[] = {")
        :: map (λ t, "    " +:+ t +:+ ",")
             (word_tokens [xde; xad; xbe; xef]%byte)
        ++ ["};"; ""]
    ∧ length (lines text) = (4 + 3) / 4 + 3.
Proof.
  apply (word_mode_lines "shaders/frag.spv" "f.h" "frag"
           [xde; xad; xbe; xef]%byte Sample.disk).
  - vm_compute. reflexivity.
  - vm_compute. intros H. discriminate H.
  - reflexivity.
Defined.

End Loop.

(** ** A complete batch *)

Section BatchSuccess.

Import IO Content.

(** X18. When both shader binaries are readable and both headers
    writable, the batch ends normally (exit status 0) and each header
    holds the text of its own shader: the second conversion does not
    disturb the first, and each header reads back to the bytes of its
    [.spv] file. *)
Theorem batch_success (vert frag : list byte) (w : world) :
  files w !! spv_path "vert" = Some vert → h_path "vert" ∉ locked w →
  files w !! spv_path "frag" = Some frag → h_path "frag" ∉ locked w →
  let r := GenerateShaderHeaders.main w in
  exit_status (fst r) = 0%Z
  ∧ (∃ text, Consumer.file_after r (h_path "vert") = Some (encode text)
             ∧ Consumer.byte_payload_of "vert" text = Some vert)
  ∧ (∃ text, Consumer.file_after r (h_path "frag") = Some (encode text)
             ∧ Consumer.byte_payload_of "frag" text = Some frag).
Proof.
  intros Hv Hlv Hf Hlf r. subst r.
  assert (∃ w', GenerateShaderHeaders.main w = (Ok tt, w')
                ∧ files w'
                  = <[h_path "frag" := encode (header_text "frag" frag)]>
                      (<[h_path "vert" := encode (header_text "vert" vert)]>
                         (files w)))
    as (w' & -> & Hw').
  { unfold GenerateShaderHeaders.main, GenerateShaderHeaders.shaders.
    cbn [for_each]. unfold bind at 1.
    rewrite (generate_header_ok _ vert) by done.
    unfold bind at 1. rewrite (generate_header_ok _ frag).
    - eexists. split; [done|]. done.
    - unfold written. cbn [files].
      rewrite lookup_insert_ne; [done|].
      intros E. by apply (spv_path_ne_h_path "frag" "vert").
    - done. }
  unfold Consumer.file_after. cbn [fst snd exit_status]. rewrite Hw'.
  split; [done|]. split.
  - exists (header_text "vert" vert).
    rewrite lookup_insert_ne by done. rewrite lookup_insert_eq.
    split; [done|apply header_text_payload].
  - exists (header_text "frag" frag). rewrite lookup_insert_eq.
    split; [done|apply header_text_payload].
Qed.

Lemma batch_success_witness :
  let r := GenerateShaderHeaders.main Sample.other_disk in
  exit_status (fst r) = 0%Z
  ∧ (∃ text, Consumer.file_after r (h_path "vert") = Some (encode text)
             ∧ Consumer.byte_payload_of "vert" text
               = Some [x03; x02; x23; x07; x00; x00; x01; x00]%byte)
  ∧ (∃ text, Consumer.file_after r (h_path "frag") = Some (encode text)
             ∧ Consumer.byte_payload_of "frag" text
               = Some [xde; xad; xbe; xef]%byte).
Proof.
  apply (batch_success [x03; x02; x23; x07; x00; x00; x01; x00]%byte
           [xde; xad; xbe; xef]%byte Sample.other_disk).
  - vm_compute. reflexivity.
  - vm_compute. intros H. discriminate H.
  - vm_compute. reflexivity.
  - vm_compute. intros H. discriminate H.
Defined.

End BatchSuccess.
